(** * video_checker: metadata normalisation and contest compliance

    A shallow embedding of the analysis core of [server.js]:
    [analyzeVideoWithFFmpeg] (the body of the ffprobe callback),
    [validateVideoSpecs], the helpers [formatFileSize], [getFormatName]
    and [getCodecName], and the part of the [/analyze-video] handler that
    joins them.

    - JavaScript numbers are IEEE 754 binary64 values.  They are modelled
      by Rocq's primitive [float]s, which implement the same format, so
      [Math.abs(x - 24) <= 0.1] is computed here as the engine computes it.
    - Integer fields that ffprobe and multer deliver as integers ([width],
      [height], the upload's [size]) are in [Z].
    - JavaScript strings are modelled by [string], read as ASCII text; the
      case conversions are the ASCII ones.
    - [eval] is modelled on a fragment of expressions, with the clock and
      the random generator of the host made explicit.
    - The directory of temporary files is modelled by its entries, regular
      files and sub-directories, together with what the file system
      allows: whether the directory can be created and under which names
      a file can be written.  A thrown error is a [None], or an aborted
      pass of the periodic sweep. *)

From Stdlib Require Import ZArith Lia List String Ascii Bool.
From Stdlib Require Import PrimFloat Uint63 FloatOps SpecFloat.
From Stdlib Require Import DecimalString DecimalPos DecimalN DecimalFacts.
Import ListNotations.

Local Set Warnings "-inexact-float".
Local Open Scope string_scope.
Local Open Scope Z_scope.

(** ** JavaScript numbers *)

Module JS.

Definition number := float.

(** The Number value of a mathematical integer: round to nearest, ties to
    even; exact below 2^53. *)
Definition Number_of_Z (z : Z) : number :=
  SF2Prim (binary_normalize prec emax z 0 false).

(** ToBoolean on a Number: [NaN], [+0] and [-0] are falsy. *)
Definition truthy (x : number) : bool :=
  negb (PrimFloat.is_nan x || PrimFloat.is_zero x).

(** [a || b] on a Number [a]. *)
Definition or_else {A} (inj : number -> A) (a : number) (b : A) : A :=
  if truthy a then inj a else b.

Definition Math_abs (x : number) : number := PrimFloat.abs x.

(** The value of a finite non-zero float is [(-1)^s * m * 2^e].  With
    [e < 0] the integers below are computed exactly in [Z]. *)
Definition signed (s : bool) (m : positive) : Z :=
  if s then Z.neg m else Z.pos m.

Definition integral (s : bool) (r : Z) : number :=
  if r =? 0 then (if s then neg_zero else zero) else Number_of_Z r.

(** [Math.floor]: the greatest integer not above [x]. *)
Definition Math_floor (x : number) : number :=
  match Prim2SF x with
  | S754_finite s m e =>
      if 0 <=? e then x
      else integral s (signed s m / 2 ^ (- e))
  | _ => x
  end.

(** [Math.round]: the integer closest to [x], ties towards +infinity,
    that is [floor (x + 1/2)] over the reals; a result of zero keeps the
    sign of [x]. *)
Definition Math_round (x : number) : number :=
  match Prim2SF x with
  | S754_finite s m e =>
      if 0 <=? e then x
      else integral s ((2 * signed s m + 2 ^ (- e)) / 2 ^ (- e + 1))
  | _ => x
  end.

End JS.

(** ** JavaScript strings *)

Module Str.

Definition code (c : ascii) : Z := Z.of_N (N_of_ascii c).

Definition is_upper (c : ascii) : bool := (65 <=? code c) && (code c <=? 90).
Definition is_lower (c : ascii) : bool := (97 <=? code c) && (code c <=? 122).
Definition is_digit (c : ascii) : bool := (48 <=? code c) && (code c <=? 57).

Definition lower_char (c : ascii) : ascii :=
  if is_upper c then ascii_of_N (N_of_ascii c + 32) else c.
Definition upper_char (c : ascii) : ascii :=
  if is_lower c then ascii_of_N (N_of_ascii c - 32) else c.

Fixpoint map (f : ascii -> ascii) (s : string) : string :=
  match s with
  | EmptyString => EmptyString
  | String c s' => String (f c) (map f s')
  end.

Definition toLowerCase : string -> string := map lower_char.
Definition toUpperCase : string -> string := map upper_char.

(** [s.includes(t)]: [t] occurs in [s] as a contiguous substring. *)
Fixpoint includes (s t : string) : bool :=
  prefix t s ||
  match s with
  | EmptyString => false
  | String _ s' => includes s' t
  end.

(** The decimal form of an integer, as in a template literal. *)
Definition of_Z (z : Z) : string := NilZero.string_of_int (Z.to_int z).

End Str.

(** ** [parseInt] with no radix argument *)

Module ParseInt.

(** White space that [parseInt] skips at the start of its input (the
    ASCII part of the WhiteSpace and LineTerminator productions). *)
Definition is_space (c : ascii) : bool :=
  let n := Str.code c in ((9 <=? n) && (n <=? 13)) || (n =? 32).

Fixpoint trim_start (s : string) : string :=
  match s with
  | String c s' => if is_space c then trim_start s' else s
  | EmptyString => s
  end.

(** The value of [c] as a digit of the given radix, if it is one. *)
Definition digit (radix : Z) (c : ascii) : option Z :=
  let n := Str.code c in
  let v := if Str.is_digit c then n - 48
           else if Str.is_lower c then n - 87
           else if Str.is_upper c then n - 55
           else radix in
  if v <? radix then Some v else None.

(** The longest prefix of [s] made of digits, read most significant
    first; [None] when that prefix is empty. *)
Fixpoint digits (radix : Z) (acc : option Z) (s : string) : option Z :=
  match s with
  | String c s' =>
      match digit radix c with
      | Some d =>
          digits radix (Some (radix * match acc with Some a => a | None => 0 end + d)) s'
      | None => acc
      end
  | EmptyString => acc
  end.

Definition strip_sign (s : string) : bool * string :=
  match s with
  | String "-" s' => (true, s')
  | String "+" s' => (false, s')
  | _ => (false, s)
  end.

Definition strip_radix (s : string) : Z * string :=
  match s with
  | String "0" (String "x" s') => (16, s')
  | String "0" (String "X" s') => (16, s')
  | _ => (10, s)
  end.

Definition parseInt (input : string) : JS.number :=
  let (neg, s) := strip_sign (trim_start input) in
  let (radix, s) := strip_radix s in
  match digits radix None s with
  | None => nan
  | Some n => JS.integral neg (if neg then - n else n)
  end.

(** [parseInt(x)] for a property that may be missing: [undefined] is
    first converted to the string ["undefined"]. *)
Definition parseInt_opt (x : option string) : JS.number :=
  parseInt (match x with Some s => s | None => "undefined" end).

End ParseInt.

(** ** The fragment of [eval] that the frame-rate expression exercises

    [eval] runs its argument as a program.  The model covers the
    expressions made of decimal integer literals, the calls [Date.now()]
    and [Math.random()], and the left-associative operators [*] and [/],
    separated by optional spaces.  On a string outside this fragment the
    model gives no answer ([None]); it never invents one. *)

Module Script.

(** What the host environment answers: the successive readings of the
    clock and the successive draws of the random generator. *)
Record Host := mkHost {
  clock : nat -> JS.number;
  entropy : nat -> JS.number;
  clock_reads : nat;
  entropy_draws : nat
}.

Inductive atom := ANum (n : Z) | ADateNow | AMathRandom.
Inductive binop := OMul | ODiv.
Inductive token := TAtom (a : atom) | TOp (o : binop).

Inductive expr :=
| EAtom (a : atom)
| EBin (o : binop) (l : expr) (r : atom).

Inductive exn := SyntaxError.

(** The completion of an evaluation. *)
Inductive completion (A : Type) := Normal (v : A) | Throw (e : exn).
Arguments Normal {A} v.
Arguments Throw {A} e.

(** *** Lexing *)

Inductive lexstate :=
| Idle
| InNum (v : Z) (lead0 : bool)
| InWord (w : string).

Inductive charclass := CDigit (d : Z) | CWord | CSpace | COp (o : binop) | COther.

Definition classify (c : ascii) : charclass :=
  if Str.is_digit c then CDigit (Str.code c - 48)
  else if Str.is_upper c || Str.is_lower c then CWord
  else match c with
       | "."%char | "("%char | ")"%char => CWord
       | " "%char => CSpace
       | "*"%char => COp OMul
       | "/"%char => COp ODiv
       | _ => COther
       end.

Definition host_call (w : string) : option atom :=
  if String.eqb w "Date.now()" then Some ADateNow
  else if String.eqb w "Math.random()" then Some AMathRandom
  else None.

(** A literal is modelled when its value is exactly a Number. *)
Definition emit (st : lexstate) : option (list token) :=
  match st with
  | Idle => Some []
  | InNum v _ => if v <? 2 ^ 53 then Some [TAtom (ANum v)] else None
  | InWord w => option_map (fun a => [TAtom a]) (host_call w)
  end.

Definition cat (a b : option (list token)) : option (list token) :=
  match a, b with
  | Some x, Some y => Some (x ++ y)%list
  | _, _ => None
  end.

(** A literal with a leading zero and more digits is a legacy octal
    literal and stays outside the fragment, as does a literal that runs
    into a word. *)
Fixpoint lex (st : lexstate) (s : string) : option (list token) :=
  match s with
  | EmptyString => emit st
  | String c s' =>
      match classify c with
      | CDigit d =>
          match st with
          | Idle => lex (InNum d (d =? 0)) s'
          | InNum v false => lex (InNum (10 * v + d) false) s'
          | InNum _ true => None
          | InWord _ => None
          end
      | CWord =>
          match st with
          | Idle => lex (InWord (String c EmptyString)) s'
          | InWord w => lex (InWord (w ++ String c EmptyString)) s'
          | InNum _ _ => None
          end
      | CSpace => cat (emit st) (lex Idle s')
      | COp o => cat (emit st) (option_map (cons (TOp o)) (lex Idle s'))
      | COther => None
      end
  end.

(** *** Parsing *)

(** Operands and operators alternate; [pending] is the operator that
    still waits for its right operand.  An operator at the end of the
    input is a syntax error; an operator followed by anything but an
    operand is left unmodelled (it may open a comment or a regular
    expression). *)
Fixpoint parse_rest (acc : expr) (pending : option binop) (ts : list token)
  : option (completion expr) :=
  match ts, pending with
  | [], None => Some (Normal acc)
  | [], Some _ => Some (Throw SyntaxError)
  | TOp o :: rest, None => parse_rest acc (Some o) rest
  | TAtom a :: rest, Some o => parse_rest (EBin o acc a) None rest
  | _, _ => None
  end.

Definition parse (ts : list token) : option (completion expr) :=
  match ts with
  | TAtom a :: rest => parse_rest (EAtom a) None rest
  | _ => None
  end.

(** *** Evaluation, left operand first *)

Definition run_atom (a : atom) (h : Host) : JS.number * Host :=
  match a with
  | ANum n => (JS.Number_of_Z n, h)
  | ADateNow =>
      (clock h (clock_reads h),
       mkHost (clock h) (entropy h) (S (clock_reads h)) (entropy_draws h))
  | AMathRandom =>
      (entropy h (entropy_draws h),
       mkHost (clock h) (entropy h) (clock_reads h) (S (entropy_draws h)))
  end.

Definition arith (o : binop) (x y : JS.number) : JS.number :=
  match o with
  | OMul => PrimFloat.mul x y
  | ODiv => PrimFloat.div x y
  end.

Fixpoint run (e : expr) (h : Host) : JS.number * Host :=
  match e with
  | EAtom a => run_atom a h
  | EBin o l r =>
      let (x, h1) := run l h in
      let (y, h2) := run_atom r h1 in
      (arith o x y, h2)
  end.

(** [eval(src)] under host [h]. *)
Definition eval (h : Host) (src : string) : option (completion JS.number) :=
  match lex Idle src with
  | None => None
  | Some ts =>
      match parse ts with
      | None => None
      | Some (Throw e) => Some (Throw e)
      | Some (Normal e) => Some (Normal (fst (run e h)))
      end
  end.

End Script.

(** ** What ffprobe hands to the callback *)

Module Probe.

(** [nb_frames], [profile] and [bit_rate] may be missing.  Fields that
    the code passes to [parseInt] or [eval] are kept in their textual
    form; [duration] is the Number that [parseFloat] returns for the
    container's duration field. *)
Record Stream := mkStream {
  codec_type : string;
  width : Z;
  height : Z;
  r_frame_rate : string;
  nb_frames : option string;
  codec_name : string;
  profile : option string
}.

Record Format := mkFormat {
  duration : JS.number;
  bit_rate : option string;
  format_name : string
}.

Record Metadata := mkMetadata {
  streams : list Stream;
  format : Format
}.

End Probe.

(** ** The video descriptor *)

Module Descriptor.

Record VideoInfo := mkVideoInfo {
  duration : JS.number;
  width : Z;
  height : Z;
  frameRate : JS.number;
  frameCount : JS.number;
  codec : string;
  profile : option string;
  bitRate : option JS.number;
  format : string
}.

(** [{...videoInfo, fileName, fileSize, mimeType}] *)
Record FullVideoInfo := mkFull {
  probed :> VideoInfo;
  fileName : string;
  fileSize : Z;
  mimeType : string
}.

End Descriptor.

Import Descriptor.

(** ** [analyzeVideoWithFFmpeg] *)

Inductive Rejection :=
| FFprobeError (message : string)      (* "Erreur FFprobe: ..." *)
| NoVideoStream                        (* "Aucun flux vidéo trouvé" *)
| MetadataParsing (e : Script.exn).      (* "Erreur parsing métadonnées: ..." *)

Inductive Promise (A : Type) :=
| Resolved (v : A)
| Rejected (r : Rejection).
Arguments Resolved {A} v.
Arguments Rejected {A} r.

Definition is_video (s : Probe.Stream) : bool :=
  String.eqb (Probe.codec_type s) "video".

(** [x || null] on an optional string: the empty string is falsy. *)
Definition string_or_null (x : option string) : option string :=
  match x with
  | Some EmptyString | None => None
  | Some s => Some s
  end.

(** The statements after the frame rate has been evaluated. *)
Definition describe (md : Probe.Metadata) (videoStream : Probe.Stream)
    (frameRate : JS.number) : VideoInfo :=
  let duration := Probe.duration (Probe.format md) in
  let frameCount :=
    JS.or_else (fun x => x)
      (ParseInt.parseInt_opt (Probe.nb_frames videoStream))
      (JS.Math_round (duration * frameRate)%float) in
  {| duration := (JS.Math_round (duration * 100) / 100)%float;
     width := Probe.width videoStream;
     height := Probe.height videoStream;
     frameRate := (JS.Math_round (frameRate * 100) / 100)%float;
     frameCount := frameCount;
     codec := Probe.codec_name videoStream;
     profile := string_or_null (Probe.profile videoStream);
     bitRate :=
       JS.or_else Some
         (ParseInt.parseInt_opt (Probe.bit_rate (Probe.format md))) None;
     format := Probe.format_name (Probe.format md) |}.

(** The ffprobe callback, given [err] or [metadata].  An exception raised
    by [eval] is caught and turned into a rejection.  The answer is [None]
    when the frame-rate string is outside the modelled fragment of
    [eval]. *)
Definition analyzeVideoWithFFmpeg (h : Script.Host)
    (probe : string + Probe.Metadata) : option (Promise VideoInfo) :=
  match probe with
  | inl message => Some (Rejected (FFprobeError message))
  | inr md =>
      match find is_video (Probe.streams md) with
      | None => Some (Rejected NoVideoStream)
      | Some videoStream =>
          match Script.eval h (Probe.r_frame_rate videoStream) with
          | None => None
          | Some (Script.Throw e) => Some (Rejected (MetadataParsing e))
          | Some (Script.Normal frameRate) =>
              Some (Resolved (describe md videoStream frameRate))
          end
      end
  end.

(** ** Display helpers *)

(** Numeric library functions whose results the language leaves to the
    engine ([Math.log], [Math.pow]) or that print and read decimal
    numerals; the model is parametric in them. *)
Class Engine := {
  Math_log : JS.number -> JS.number;
  Math_pow : JS.number -> JS.number -> JS.number;
  toFixed : JS.number -> Z -> string;
  parseFloat : string -> JS.number;
  Number_toString : JS.number -> string
}.

(** [xs[i]] inside a string concatenation: a missing element prints as
    ["undefined"]. *)
Definition index_of (i : JS.number) : option Z :=
  match Prim2SF i with
  | S754_zero _ => Some 0
  | S754_finite false m e =>
      if 0 <=? e then Some (Z.pos m * 2 ^ e)
      else if Z.pos m mod 2 ^ (- e) =? 0 then Some (Z.pos m / 2 ^ (- e))
      else None
  | _ => None
  end.

Definition element (xs : list string) (i : JS.number) : string :=
  match index_of i with
  | Some n => nth (Z.to_nat n) xs "undefined"
  | None => "undefined"
  end.

Definition formatFileSize `{Engine} (bytes : Z) : string :=
  if bytes =? 0 then "0 Bytes"
  else
    let k := 1024%float in
    let sizes := ["Bytes"; "KB"; "MB"; "GB"] in
    let i := JS.Math_floor (Math_log (JS.Number_of_Z bytes) / Math_log k)%float in
    Number_toString
      (parseFloat (toFixed (JS.Number_of_Z bytes / Math_pow k i)%float 2))
    ++ " " ++ element sizes i.

Definition getFormatName (format mimeType : string) : string :=
  if Str.includes (Str.toLowerCase format) "mp4" || Str.includes mimeType "mp4"
  then "MP4"
  else if Str.includes (Str.toLowerCase format) "mov"
          || Str.includes (Str.toLowerCase format) "quicktime"
          || Str.includes mimeType "quicktime"
  then "MOV"
  else Str.toUpperCase format.

(** The entries of [codecMap], in insertion order. *)
Definition codecMap : list (string * string) :=
  [ ("h264", "H.264"); ("avc", "H.264"); ("avc1", "H.264");
    ("hevc", "H.265"); ("h265", "H.265"); ("hev1", "H.265");
    ("hvc1", "H.265") ].

Definition getCodecName (codec : string) : string :=
  let lowerCodec := Str.toLowerCase codec in
  match find (fun kv => Str.includes lowerCodec (fst kv)) codecMap with
  | Some kv => snd kv
  | None => Str.toUpperCase codec
  end.

(** ** [validateVideoSpecs] *)

Module Criteria.

Record t := mk {
  resolutions : list (Z * Z);
  frameRate : JS.number;
  frameCount : JS.number;
  duration : JS.number;
  maxFileSize : Z;
  allowedFormats : list string;
  allowedCodecs : list string
}.

End Criteria.

Definition criteria : Criteria.t :=
  {| Criteria.resolutions := [(1920, 810); (3840, 1620)];
     Criteria.frameRate := 24%float;
     Criteria.frameCount := 144%float;
     Criteria.duration := 6%float;
     Criteria.maxFileSize := 100 * 1024 * 1024;
     Criteria.allowedFormats := ["mp4"; "mov"; "quicktime"];
     Criteria.allowedCodecs := ["h264"; "hevc"; "h265"] |}.

(** A [value] is whatever the code stores there: a string or a Number. *)
Inductive JSValue :=
| VString (s : string)
| VNumber (x : JS.number).

Definition is_string (v : JSValue) : bool :=
  match v with
  | VString _ => true
  | VNumber _ => false
  end.

Record CriterionResult := mkResult {
  valid : bool;
  value : JSValue;
  requirement : string;
  exact : bool
}.

Definition fileSize_valid (videoInfo : FullVideoInfo) : bool :=
  fileSize videoInfo <=? Criteria.maxFileSize criteria.

Definition fileSize_result `{Engine} (videoInfo : FullVideoInfo) : CriterionResult :=
  {| valid := fileSize_valid videoInfo;
     value := VString (formatFileSize (fileSize videoInfo));
     requirement := "< 100MB";
     exact := true |}.

Definition format_result (videoInfo : FullVideoInfo) : CriterionResult :=
  {| valid :=
       existsb
         (fun format =>
            Str.includes (Str.toLowerCase (Descriptor.format videoInfo)) format
            || Str.includes (mimeType videoInfo) format)
         (Criteria.allowedFormats criteria);
     value := VString (getFormatName (format videoInfo) (mimeType videoInfo));
     requirement := "MP4 or MOV";
     exact := true |}.

Definition resolution_result (videoInfo : FullVideoInfo) : CriterionResult :=
  {| valid :=
       existsb
         (fun res =>
            (fst res =? width videoInfo) && (snd res =? height videoInfo))
         (Criteria.resolutions criteria);
     value :=
       VString (Str.of_Z (width videoInfo) ++ "×" ++ Str.of_Z (height videoInfo));
     requirement := "1920×810 or 3840×1620";
     exact := true |}.

Definition frameRate_valid (videoInfo : FullVideoInfo) : bool :=
  (JS.Math_abs (frameRate videoInfo - Criteria.frameRate criteria) <=? 0.1)%float.

Definition frameRate_result `{Engine} (videoInfo : FullVideoInfo) : CriterionResult :=
  {| valid := frameRate_valid videoInfo;
     value := VString (Number_toString (frameRate videoInfo) ++ " fps");
     requirement := "24 fps";
     exact := true |}.

Definition frameCount_result (videoInfo : FullVideoInfo) : CriterionResult :=
  {| valid :=
       (JS.Math_abs (frameCount videoInfo - Criteria.frameCount criteria) <=? 2)%float;
     value := VNumber (frameCount videoInfo);
     requirement := "144 frames";
     exact := true |}.

Definition codec_result (videoInfo : FullVideoInfo) : CriterionResult :=
  {| valid :=
       existsb
         (fun codec =>
            let lowerVideoCodec := Str.toLowerCase (Descriptor.codec videoInfo) in
            let lowerCriteriaCodec := Str.toLowerCase codec in
            Str.includes lowerVideoCodec lowerCriteriaCodec
            || Str.includes lowerVideoCodec "avc"
            || Str.includes lowerVideoCodec "hevc")
         (Criteria.allowedCodecs criteria);
     value := VString (getCodecName (Descriptor.codec videoInfo));
     requirement := "H.264 or H.265";
     exact := true |}.

Module Results.

Record t := mk {
  fileSize : CriterionResult;
  format : CriterionResult;
  resolution : CriterionResult;
  frameRate : CriterionResult;
  frameCount : CriterionResult;
  codec : CriterionResult;
  overall : bool
}.

End Results.

(** The properties of [results] in insertion order, at the point where
    [overall] is computed. *)
Definition entries (fileSize format resolution frameRate frameCount codec : CriterionResult)
  : list (string * CriterionResult) :=
  [ ("fileSize", fileSize); ("format", format); ("resolution", resolution);
    ("frameRate", frameRate); ("frameCount", frameCount); ("codec", codec) ].

(** [Object.keys(results).every(key => key === 'overall' || results[key].valid)] *)
Definition every_valid (es : list (string * CriterionResult)) : bool :=
  forallb (fun e => String.eqb (fst e) "overall" || valid (snd e)) es.

Definition validateVideoSpecs `{Engine} (videoInfo : FullVideoInfo) : Results.t :=
  let fileSize := fileSize_result videoInfo in
  let format := format_result videoInfo in
  let resolution := resolution_result videoInfo in
  let frameRate := frameRate_result videoInfo in
  let frameCount := frameCount_result videoInfo in
  let codec := codec_result videoInfo in
  Results.mk fileSize format resolution frameRate frameCount codec
    (every_valid (entries fileSize format resolution frameRate frameCount codec)).

(** ** The [/analyze-video] handler, after the upload has been probed *)

Record Upload := mkUpload {
  originalname : string;
  size : Z;
  mimetype : string
}.

Inductive Response :=
| Success (videoInfo : FullVideoInfo) (validation : Results.t)
| Failure (details : Rejection).

Definition analyzeVideo `{Engine} (h : Script.Host) (file : Upload)
    (probe : string + Probe.Metadata) : option Response :=
  match analyzeVideoWithFFmpeg h probe with
  | None => None
  | Some (Rejected r) => Some (Failure r)
  | Some (Resolved videoInfo) =>
      let fullVideoInfo :=
        {| probed := videoInfo;
           fileName := originalname file;
           fileSize := size file;
           mimeType := mimetype file |} in
      Some (Success fullVideoInfo (validateVideoSpecs fullVideoInfo))
  end.

(** ** [getFileExtension] and the name of the temporary file *)

(** [s.split(sep)] for a separator of one character: the pieces between
    the separators, at least one piece. *)
Fixpoint split (sep : ascii) (s : string) : list string :=
  match s with
  | EmptyString => [EmptyString]
  | String c s' =>
      if Ascii.eqb c sep then EmptyString :: split sep s'
      else match split sep s' with
           | piece :: pieces => String c piece :: pieces
           | [] => [String c EmptyString]
           end
  end.

(** [xs.pop()]: the last element, [undefined] ([None]) on an empty array. *)
Fixpoint pop (xs : list string) : option string :=
  match xs with
  | [] => None
  | [x] => Some x
  | _ :: xs' => pop xs'
  end.

(** [filename.split('.').pop().toLowerCase()]; [None] stands for the
    TypeError of calling [toLowerCase] on [undefined]. *)
Definition getFileExtension (filename : string) : option string :=
  option_map Str.toLowerCase (pop (split "." filename)).

(** [`temp_${Date.now()}_${...}.${getFileExtension(originalname)}`], where
    [stamp] is the text of the clock reading and of the random suffix. *)
Definition tempFileName (stamp originalname : string) : option string :=
  option_map (fun ext => "temp_" ++ stamp ++ "." ++ ext)
    (getFileExtension originalname).

(** ** The temporary directory *)

Module Temp.

Inductive kind := File | Directory.

(** The directory [temp] next to the server, on its file system: whether it
    exists, whether [mkdirSync] can create it, under which names the file
    system lets a file be written (it refuses some: a name that is too
    long, for one), and its entries in the order [readdirSync] lists
    them. *)
Record t := mk {
  present : bool;
  creatable : bool;
  writable : string -> bool;
  entries : list (string * kind)
}.










End Temp.

(** ** The [/analyze-video] handler with its temporary file *)








(** ** The periodic sweep of the temporary directory *)







(** * Vocabulary of the statements *)

(** ** Frame-rate texts that make no call *)

Definition letter (c : ascii) : bool := Str.is_upper c || Str.is_lower c.

Fixpoint no_letters (s : string) : bool :=
  match s with
  | EmptyString => true
  | String c s' => negb (letter c) && no_letters s'
  end.

Definition literal_atom (a : Script.atom) : Prop :=
  match a with Script.ANum _ => True | _ => False end.

Definition literal_token (t : Script.token) : Prop :=
  match t with Script.TAtom a => literal_atom a | Script.TOp _ => True end.

Fixpoint literal_expr (e : Script.expr) : Prop :=
  match e with
  | Script.EAtom a => literal_atom a
  | Script.EBin _ l r => literal_expr l /\ literal_atom r
  end.

Definition wordless (st : Script.lexstate) : Prop :=
  match st with Script.InWord w => no_letters w = true | _ => True end.

(** ** Sample inputs *)

Definition sample_stream (rate : string) (nb : option string) : Probe.Stream :=
  Probe.mkStream "video" 1920 810 rate nb "h264" (Some "High").

(** A six-second clip with an audio stream in front of the video stream. *)
Definition sample_probe (rate : string) (nb : option string) : Probe.Metadata :=
  Probe.mkMetadata
    [Probe.mkStream "audio" 0 0 "0/0" None "aac" None; sample_stream rate nb]
    (Probe.mkFormat 6%float (Some "5000000") "mov,mp4,m4a,3gp,3g2,mj2").

(** Two hosts whose clocks and random generators answer differently. *)
Definition host_a : Script.Host :=
  Script.mkHost (fun n => JS.Number_of_Z (1700000000000 + Z.of_nat n))
    (fun _ => 0.5%float) 0 0.

Definition host_b : Script.Host :=
  Script.mkHost (fun n => JS.Number_of_Z (1700000060000 + Z.of_nat n))
    (fun _ => 0.25%float) 0 0.

(** A descriptor that meets every rule. *)
Definition compliant : FullVideoInfo :=
  {| probed :=
       {| duration := 6%float; width := 1920; height := 810;
          frameRate := 24%float; frameCount := 144%float; codec := "h264";
          profile := Some "High";
          bitRate := Some 5000000%float; format := "mov,mp4,m4a,3gp,3g2,mj2" |};
     fileName := "clip.mp4"; fileSize := 50 * 1024 * 1024;
     mimeType := "video/mp4" |}.

(** A descriptor with one field replaced. *)
Definition with_frameRate (v : FullVideoInfo) (x : JS.number) : FullVideoInfo :=
  {| probed :=
       {| duration := duration v; width := width v; height := height v;
          frameRate := x; frameCount := frameCount v; codec := codec v;
          profile := profile v; bitRate := bitRate v; format := format v |};
     fileName := fileName v; fileSize := fileSize v; mimeType := mimeType v |}.

Definition with_codec (v : FullVideoInfo) (c : string) : FullVideoInfo :=
  {| probed :=
       {| duration := duration v; width := width v; height := height v;
          frameRate := frameRate v; frameCount := frameCount v; codec := c;
          profile := profile v; bitRate := bitRate v; format := format v |};
     fileName := fileName v; fileSize := fileSize v; mimeType := mimeType v |}.

Definition with_fileSize (v : FullVideoInfo) (n : Z) : FullVideoInfo :=
  {| probed := probed v;
     fileName := fileName v; fileSize := n; mimeType := mimeType v |}.

Definition with_container (v : FullVideoInfo) (f m : string) : FullVideoInfo :=
  {| probed :=
       {| duration := duration v; width := width v; height := height v;
          frameRate := frameRate v; frameCount := frameCount v; codec := codec v;
          profile := profile v; bitRate := bitRate v; format := f |};
     fileName := fileName v; fileSize := fileSize v; mimeType := m |}.

(** The frame-rate text of the stream the callback picks makes no call. *)
Definition call_free (md : Probe.Metadata) : bool :=
  match find is_video (Probe.streams md) with
  | Some st => no_letters (Probe.r_frame_rate st)
  | None => true
  end.

(** ** Further vocabulary *)

(** The text after a numeral does not continue it: it is empty or starts
    with a character that is neither a digit nor the [x] of a radix
    prefix. *)
Definition delimits (rest : string) : bool :=
  match rest with
  | EmptyString => true
  | String c _ =>
      negb (Str.is_digit c) && negb (Ascii.eqb c "x") && negb (Ascii.eqb c "X")
  end.

Definition with_frameCount (v : FullVideoInfo) (x : JS.number) : FullVideoInfo :=
  {| probed :=
       {| duration := duration v; width := width v; height := height v;
          frameRate := frameRate v; frameCount := x; codec := codec v;
          profile := profile v; bitRate := bitRate v; format := format v |};
     fileName := fileName v; fileSize := fileSize v; mimeType := mimeType v |}.

Definition with_resolution (v : FullVideoInfo) (w h : Z) : FullVideoInfo :=
  {| probed :=
       {| duration := duration v; width := w; height := h;
          frameRate := frameRate v; frameCount := frameCount v; codec := codec v;
          profile := profile v; bitRate := bitRate v; format := format v |};
     fileName := fileName v; fileSize := fileSize v; mimeType := mimeType v |}.

(** [P] holds of [count] consecutive integers from [start] on. *)
Fixpoint all_from (P : Z -> bool) (start : Z) (count : nat) : bool :=
  match count with
  | O => true
  | S c => P start && all_from P (start + 1) c
  end.

(** * Properties *)

(** ** Lexing and evaluating a ratio of two numerals *)

Section Numerals.

Import Script.

Lemma lex_digits_acc (u : Decimal.uint) (acc : positive) (rest : string) :
  lex (InNum (Z.pos acc) false) (NilEmpty.string_of_uint u ++ rest)
  = lex (InNum (Z.pos (Pos.of_uint_acc u acc)) false) rest.
Proof.
  revert acc.
  induction u; intro acc; cbn [NilEmpty.string_of_uint append Pos.of_uint_acc];
    [ reflexivity | .. ];
    cbn [lex];
    match goal with
    | |- context [classify ?c] =>
        let k := eval vm_compute in (classify c) in
        change (classify c) with k
    end;
    cbv iota; rewrite <- IHu; do 2 f_equal.
    all: lia.
Qed.

Lemma nzhead_not_D0 (d u : Decimal.uint) : Decimal.nzhead d <> Decimal.D0 u.
Proof. induction d; cbn; try discriminate; assumption. Qed.

(** The numeral of a positive number has a non-zero first digit. *)
Lemma lex_positive (p : positive) (rest : string) :
  lex Idle (Str.of_Z (Z.pos p) ++ rest) = lex (InNum (Z.pos p) false) rest.
Proof.
  unfold Str.of_Z, Z.to_int, NilZero.string_of_int, NilZero.string_of_uint.
  pose proof (DecimalPos.Unsigned.of_to p) as Hof.
  pose proof (DecimalN.Unsigned.to_of (Pos.to_uint p)) as Hnorm.
  rewrite DecimalPos.Unsigned.of_to in Hnorm. cbn [N.to_uint] in Hnorm.
  destruct (Pos.to_uint p) as [|u|u|u|u|u|u|u|u|u|u] eqn:E;
    cbn [Pos.of_uint] in Hof; try discriminate Hof;
    try (injection Hof as Hof; rewrite <- Hof;
         cbn [NilEmpty.string_of_uint append lex];
         match goal with
         | |- context [classify ?c] =>
             let k := eval vm_compute in (classify c) in
             change (classify c) with k
         end;
         cbv iota; cbn [Z.eqb]; apply lex_digits_acc).
  exfalso. unfold Decimal.unorm in Hnorm. cbn [Decimal.nzhead] in Hnorm.
  destruct (Decimal.nzhead u) eqn:Hu; try discriminate Hnorm.
  - injection Hnorm as ->. discriminate Hof.
  - symmetry in Hnorm. rewrite <- Hu in Hnorm. exact (nzhead_not_D0 _ _ Hnorm).
Qed.

Lemma lex_numeral (n : Z) (rest : string) :
  0 <= n ->
  lex Idle (Str.of_Z n ++ rest) = lex (InNum n (n =? 0)) rest.
Proof.
  intro Hn. destruct n as [|p|p]; [reflexivity | apply lex_positive | lia].
Qed.

Lemma eval_ratio (h : Host) (n d : Z) :
  0 <= n < 2 ^ 53 -> 0 <= d < 2 ^ 53 ->
  eval h (Str.of_Z n ++ "/" ++ Str.of_Z d)
  = Some (Normal (JS.Number_of_Z n / JS.Number_of_Z d)%float).
Proof.
  intros [Hn0 Hn] [Hd0 Hd]. unfold eval.
  rewrite lex_numeral by assumption.
  cbn [append lex]. change (classify "/") with (COp ODiv). cbv iota.
  replace (Str.of_Z d) with (Str.of_Z d ++ "")
    by (generalize (Str.of_Z d); induction s; cbn; congruence).
  rewrite lex_numeral by assumption.
  cbn [lex emit].
  apply Z.ltb_lt in Hn, Hd. rewrite Hn, Hd.
  reflexivity.
Qed.

Lemma append_empty (s : string) : s ++ "" = s.
Proof. induction s; cbn; congruence. Qed.

Lemma eval_product (h : Host) (n d : Z) :
  0 <= n < 2 ^ 53 -> 0 <= d < 2 ^ 53 ->
  eval h (Str.of_Z n ++ "*" ++ Str.of_Z d)
  = Some (Normal (JS.Number_of_Z n * JS.Number_of_Z d)%float).
Proof.
  intros [Hn0 Hn] [Hd0 Hd]. unfold eval.
  rewrite lex_numeral by assumption.
  cbn [append lex]. change (classify "*") with (COp OMul). cbv iota.
  rewrite <- (append_empty (Str.of_Z d)).
  rewrite lex_numeral by assumption.
  cbn [lex emit].
  apply Z.ltb_lt in Hn, Hd. rewrite Hn, Hd.
  reflexivity.
Qed.

Lemma eval_numeral (h : Host) (n : Z) :
  0 <= n < 2 ^ 53 ->
  eval h (Str.of_Z n) = Some (Normal (JS.Number_of_Z n)).
Proof.
  intros [Hn0 Hn]. unfold eval.
  rewrite <- (append_empty (Str.of_Z n)).
  rewrite lex_numeral by assumption.
  cbn [lex emit].
  apply Z.ltb_lt in Hn. rewrite Hn.
  reflexivity.
Qed.

(** An operator with nothing after it is a syntax error. *)
Lemma eval_dangling_slash (h : Host) (n : Z) :
  0 <= n < 2 ^ 53 ->
  eval h (Str.of_Z n ++ "/") = Some (Throw SyntaxError).
Proof.
  intros [Hn0 Hn]. unfold eval.
  rewrite lex_numeral by assumption.
  cbn [lex]. change (classify "/") with (COp ODiv). cbv iota.
  cbn [lex emit].
  apply Z.ltb_lt in Hn. rewrite Hn.
  reflexivity.
Qed.

End Numerals.

(** ** Expressions that do not consult the host *)

Section HostIndependence.

Import Script.

Lemma no_letters_app (s t : string) :
  no_letters (s ++ t) = no_letters s && no_letters t.
Proof.
  induction s as [|c s IH]; cbn; [reflexivity|].
  rewrite IH. apply andb_assoc.
Qed.

Lemma host_call_needs_letters (w : string) :
  no_letters w = true -> host_call w = None.
Proof.
  intro Hw. unfold host_call.
  destruct (String.eqb_spec w "Date.now()") as [->|_]; [discriminate Hw|].
  destruct (String.eqb_spec w "Math.random()") as [->|_]; [discriminate Hw|].
  reflexivity.
Qed.

Lemma emit_literal (st : lexstate) (ts : list token) :
  wordless st -> emit st = Some ts -> Forall literal_token ts.
Proof.
  destruct st as [|v b|w]; cbn [emit wordless]; intros Hst Hts.
  - injection Hts as <-. constructor.
  - destruct (v <? 2 ^ 53); [|discriminate].
    injection Hts as <-. repeat constructor.
  - rewrite (host_call_needs_letters w Hst) in Hts. discriminate.
Qed.

Lemma cat_literal (a b : option (list token)) (ts : list token) :
  (forall x, a = Some x -> Forall literal_token x) ->
  (forall y, b = Some y -> Forall literal_token y) ->
  cat a b = Some ts -> Forall literal_token ts.
Proof.
  intros Ha Hb. destruct a as [x|], b as [y|]; cbn; try discriminate.
  intros [= <-]. apply Forall_app. split; auto.
Qed.

Lemma lex_literal (s : string) :
  forall st ts,
    no_letters s = true -> wordless st ->
    lex st s = Some ts -> Forall literal_token ts.
Proof.
  induction s as [|c s IH]; intros st ts Hs Hst; cbn [lex].
  - apply emit_literal; assumption.
  - cbn [no_letters] in Hs. apply andb_true_iff in Hs as [Hc Hs].
    apply negb_true_iff in Hc.
    destruct (classify c) eqn:Hclass.
    + destruct st as [|v [|]|w]; try discriminate; apply IH; cbn; auto.
    + assert (Hone : no_letters (String c EmptyString) = true)
        by (cbn; rewrite Hc; reflexivity).
      destruct st as [|v b|w]; try discriminate; apply IH; cbn [wordless]; auto.
      rewrite no_letters_app, Hst, Hone. reflexivity.
    + apply cat_literal; intros x Hx.
      * eapply emit_literal; eassumption.
      * apply (IH Idle x Hs I Hx).
    + apply cat_literal; intros x Hx.
      * eapply emit_literal; eassumption.
      * destruct (lex Idle s) as [y|] eqn:Hy; [|discriminate].
        injection Hx as <-. constructor; [exact I|].
        apply (IH Idle y Hs I Hy).
    + discriminate.
Qed.

Lemma parse_rest_literal (ts : list token) :
  forall acc pending e,
    literal_expr acc -> Forall literal_token ts ->
    parse_rest acc pending ts = Some (Normal e) -> literal_expr e.
Proof.
  induction ts as [|t ts IH]; intros acc pending e Hacc Hts; cbn [parse_rest].
  - destruct pending; [discriminate|]. intros [= <-]. exact Hacc.
  - inversion Hts as [|? ? Ht Hts']; subst.
    destruct t as [a|o], pending as [o'|]; try discriminate.
    + apply IH; [split; assumption | assumption].
    + apply IH; assumption.
Qed.

Lemma parse_literal (ts : list token) (e : expr) :
  Forall literal_token ts -> parse ts = Some (Normal e) -> literal_expr e.
Proof.
  destruct ts as [|[a|o] ts]; cbn; try discriminate.
  intros Hts. inversion Hts; subst. apply parse_rest_literal; assumption.
Qed.

Lemma run_literal (e : expr) (h1 h2 : Host) :
  literal_expr e -> fst (run e h1) = fst (run e h2).
Proof.
  induction e as [[n| |]|o l IH [n| |]]; cbn; try tauto.
  intros [Hl _]. specialize (IH Hl).
  destruct (run l h1), (run l h2); cbn in *. congruence.
Qed.

Lemma eval_host_independent (s : string) (h1 h2 : Host) :
  no_letters s = true -> eval h1 s = eval h2 s.
Proof.
  intro Hs. unfold eval.
  destruct (lex Idle s) as [ts|] eqn:Hlex; [|reflexivity].
  pose proof (lex_literal s Idle ts Hs I Hlex) as Hts.
  destruct (parse ts) as [[e|x]|] eqn:Hparse; try reflexivity.
  rewrite (run_literal e h1 h2 (parse_literal ts e Hts Hparse)). reflexivity.
Qed.

End HostIndependence.

(** ** Normalisation *)

(** C1 (amended): the frame-rate string is not parsed, it is handed to
    [eval].  For non-negative integers [n] and [d] below 2^53, written in
    decimal without superfluous leading zero, and a record with a video
    stream: the string [n/d] normalises successfully and its frame rate is
    the numerator divided by the denominator, rounded to two decimals in
    the descriptor; the strings [n*d] and [n], which are not of the form
    integer/integer, normalise successfully as well, with frame rates the
    product and [n]; the string [n/], whose evaluation throws a syntax
    error, is rejected with the parsing error that carries it. *)
Theorem frame_rate_is_evaluated (h : Script.Host) (md : Probe.Metadata)
    (st : Probe.Stream) (n d : Z) :
  find is_video (Probe.streams md) = Some st ->
  0 <= n < 2 ^ 53 ->
  0 <= d < 2 ^ 53 ->
  (Probe.r_frame_rate st = Str.of_Z n ++ "/" ++ Str.of_Z d ->
   let ratio := (JS.Number_of_Z n / JS.Number_of_Z d)%float in
   analyzeVideoWithFFmpeg h (inr md) = Some (Resolved (describe md st ratio))
   /\ frameRate (describe md st ratio)
      = (JS.Math_round (ratio * 100) / 100)%float)
  /\ (Probe.r_frame_rate st = Str.of_Z n ++ "*" ++ Str.of_Z d ->
      analyzeVideoWithFFmpeg h (inr md)
      = Some (Resolved
                (describe md st (JS.Number_of_Z n * JS.Number_of_Z d)%float)))
  /\ (Probe.r_frame_rate st = Str.of_Z n ->
      analyzeVideoWithFFmpeg h (inr md)
      = Some (Resolved (describe md st (JS.Number_of_Z n))))
  /\ (Probe.r_frame_rate st = Str.of_Z n ++ "/" ->
      analyzeVideoWithFFmpeg h (inr md)
      = Some (Rejected (MetadataParsing Script.SyntaxError))).
Proof.
  intros Hfind Hn Hd. unfold analyzeVideoWithFFmpeg. rewrite Hfind.
  split; [|split; [|split]]; intro Hrate; rewrite Hrate.
  - cbv zeta. rewrite (eval_ratio h n d Hn Hd). split; reflexivity.
  - rewrite (eval_product h n d Hn Hd). reflexivity.
  - rewrite (eval_numeral h n Hn). reflexivity.
  - rewrite (eval_dangling_slash h n Hn). reflexivity.
Qed.

Lemma frame_rate_is_evaluated_witness :
  (analyzeVideoWithFFmpeg host_a (inr (sample_probe "24000/1001" None))
   = Some (Resolved (describe (sample_probe "24000/1001" None)
                       (sample_stream "24000/1001" None)
                       (JS.Number_of_Z 24000 / JS.Number_of_Z 1001)%float))
   /\ frameRate (describe (sample_probe "24000/1001" None)
                   (sample_stream "24000/1001" None)
                   (JS.Number_of_Z 24000 / JS.Number_of_Z 1001)%float)
      = 23.98%float)
  /\ analyzeVideoWithFFmpeg host_a (inr (sample_probe "24*2" None))
     = Some (Resolved (describe (sample_probe "24*2" None)
                         (sample_stream "24*2" None) 48%float))
  /\ analyzeVideoWithFFmpeg host_a (inr (sample_probe "25" None))
     = Some (Resolved (describe (sample_probe "25" None)
                         (sample_stream "25" None) 25%float))
  /\ analyzeVideoWithFFmpeg host_a (inr (sample_probe "24/" None))
     = Some (Rejected (MetadataParsing Script.SyntaxError)).
Proof.
  split; [|split; [|split]].
  - destruct (frame_rate_is_evaluated host_a (sample_probe "24000/1001" None)
                (sample_stream "24000/1001" None) 24000 1001)
      as (Hratio & _); [reflexivity | lia | lia |].
    destruct (Hratio eq_refl) as [Hres Hrate].
    split; [exact Hres|]. rewrite Hrate. vm_compute. reflexivity.
  - destruct (frame_rate_is_evaluated host_a (sample_probe "24*2" None)
                (sample_stream "24*2" None) 24 2)
      as (_ & Hproduct & _); [reflexivity | lia | lia |].
    rewrite (Hproduct eq_refl). vm_compute. reflexivity.
  - destruct (frame_rate_is_evaluated host_a (sample_probe "25" None)
                (sample_stream "25" None) 25 0)
      as (_ & _ & Hnumeral & _); [reflexivity | lia | lia |].
    rewrite (Hnumeral eq_refl). vm_compute. reflexivity.
  - destruct (frame_rate_is_evaluated host_a (sample_probe "24/" None)
                (sample_stream "24/" None) 24 0)
      as (_ & _ & _ & Hdangling); [reflexivity | lia | lia |].
    exact (Hdangling eq_refl).
Defined.

(** C1 (as stated) fails: ["24*1"] holds a character that is neither a
    digit nor a slash, yet normalisation resolves with frame rate 24; and
    ["24"] is no ratio at all. *)
Lemma frame_rate_syntax_not_enforced :
  Str.includes "24*1" "*" = true
  /\ (exists v, analyzeVideoWithFFmpeg host_a (inr (sample_probe "24*1" None))
                = Some (Resolved v)
                /\ frameRate v = 24%float)
  /\ Str.includes "24" "/" = false
  /\ (exists v, analyzeVideoWithFFmpeg host_a (inr (sample_probe "24" None))
                = Some (Resolved v)
                /\ frameRate v = 24%float).
Proof.
  split; [reflexivity|]. split.
  - eexists. split; vm_compute; reflexivity.
  - split; [reflexivity|]. eexists. split; vm_compute; reflexivity.
Qed.

(** C8 (amended): in a resolved descriptor the frame count is the stream's
    explicit count whenever [parseInt] reads a number other than zero from
    it (a negative one included), and otherwise, when the count is missing,
    unreadable or zero, it is [Math.round] of the full-precision duration
    times the evaluated, unrounded frame rate. *)
Theorem frame_count_explicit_or_computed (h : Script.Host)
    (md : Probe.Metadata) (v : VideoInfo) :
  analyzeVideoWithFFmpeg h (inr md) = Some (Resolved v) ->
  exists st rate,
    find is_video (Probe.streams md) = Some st
    /\ Script.eval h (Probe.r_frame_rate st) = Some (Script.Normal rate)
    /\ let explicit := ParseInt.parseInt_opt (Probe.nb_frames st) in
       frameCount v =
         if JS.truthy explicit then explicit
         else JS.Math_round (Probe.duration (Probe.format md) * rate)%float.
Proof.
  unfold analyzeVideoWithFFmpeg.
  destruct (find is_video (Probe.streams md)) as [st|]; [|discriminate].
  destruct (Script.eval h (Probe.r_frame_rate st)) as [[rate|e]|] eqn:Heval;
    try discriminate.
  intros [= <-]. exists st, rate.
  split; [reflexivity|]. split; [exact Heval | reflexivity].
Qed.

Lemma frame_count_explicit_or_computed_witness :
  analyzeVideoWithFFmpeg host_a (inr (sample_probe "24/1" (Some "144")))
  = Some (Resolved (describe (sample_probe "24/1" (Some "144"))
                      (sample_stream "24/1" (Some "144")) 24%float))
  /\ exists st rate,
       find is_video (Probe.streams (sample_probe "24/1" (Some "144"))) = Some st
       /\ Script.eval host_a (Probe.r_frame_rate st) = Some (Script.Normal rate)
       /\ let explicit := ParseInt.parseInt_opt (Probe.nb_frames st) in
          frameCount (describe (sample_probe "24/1" (Some "144"))
                        (sample_stream "24/1" (Some "144")) 24%float) =
            if JS.truthy explicit then explicit
            else JS.Math_round
                   (Probe.duration (Probe.format (sample_probe "24/1" (Some "144")))
                    * rate)%float.
Proof.
  split; [reflexivity|].
  apply (frame_count_explicit_or_computed host_a
           (sample_probe "24/1" (Some "144"))).
  reflexivity.
Defined.

(** C8 (as stated) fails on a count that is present but not greater than
    zero: with [nb_frames = "-5"] the descriptor keeps -5 although
    [round(duration * frameRate)] is 144. *)
Lemma negative_frame_count_kept :
  (0 <? ParseInt.parseInt "-5")%float = false
  /\ exists v,
       analyzeVideoWithFFmpeg host_a (inr (sample_probe "24/1" (Some "-5")))
       = Some (Resolved v)
       /\ frameCount v = (-5)%float
       /\ JS.Math_round (6 * 24)%float = 144%float
       /\ (frameCount v =? JS.Math_round (6 * 24))%float = false.
Proof.
  split; [reflexivity|]. eexists. split; [reflexivity|].
  repeat split.
Qed.

(** ** Determinism *)

(** On the modelled fragment of [eval], a frame-rate text without letters
    is evaluated alike under any two hosts.  Where the model has no answer
    for the text, it has none under either host. *)
Lemma call_free_same_answer (h1 h2 : Script.Host) (md : Probe.Metadata) :
  call_free md = true ->
  analyzeVideoWithFFmpeg h1 (inr md) = analyzeVideoWithFFmpeg h2 (inr md).
Proof.
  intro Hfree. unfold analyzeVideoWithFFmpeg, call_free in *.
  destruct (find is_video (Probe.streams md)) as [st|]; [|reflexivity].
  rewrite (eval_host_independent _ h1 h2 Hfree). reflexivity.
Qed.

(** C4 (amended): when the frame-rate text of the video stream is
    integer/integer, with non-negative numerals below 2^53 written in
    decimal without superfluous leading zero, normalisation resolves with
    one and the same descriptor under any two hosts, whatever their clocks
    and random generators answer, and the whole response, verdict
    included, is the same under both. *)
Theorem normalisation_host_independent (h1 h2 : Script.Host)
    (md : Probe.Metadata) (st : Probe.Stream) (n d : Z) :
  find is_video (Probe.streams md) = Some st ->
  0 <= n < 2 ^ 53 ->
  0 <= d < 2 ^ 53 ->
  Probe.r_frame_rate st = Str.of_Z n ++ "/" ++ Str.of_Z d ->
  let v := describe md st (JS.Number_of_Z n / JS.Number_of_Z d)%float in
  analyzeVideoWithFFmpeg h1 (inr md) = Some (Resolved v)
  /\ analyzeVideoWithFFmpeg h2 (inr md) = Some (Resolved v)
  /\ forall (E : Engine) (file : Upload),
       exists fullVideoInfo,
         probed fullVideoInfo = v
         /\ analyzeVideo h1 file (inr md)
            = Some (Success fullVideoInfo (validateVideoSpecs fullVideoInfo))
         /\ analyzeVideo h2 file (inr md)
            = Some (Success fullVideoInfo (validateVideoSpecs fullVideoInfo)).
Proof.
  intros Hfind Hn Hd Hrate v.
  assert (Hboth : forall h, analyzeVideoWithFFmpeg h (inr md) = Some (Resolved v)).
  { intro h. unfold analyzeVideoWithFFmpeg. rewrite Hfind, Hrate.
    rewrite (eval_ratio h n d Hn Hd). reflexivity. }
  split; [apply Hboth|]. split; [apply Hboth|].
  intros E file. unfold analyzeVideo. rewrite !Hboth.
  eexists. split; [|split; reflexivity]. reflexivity.
Qed.

Lemma normalisation_host_independent_witness :
  let md := sample_probe "24000/1001" None in
  let v := describe md (sample_stream "24000/1001" None)
             (JS.Number_of_Z 24000 / JS.Number_of_Z 1001)%float in
  frameRate v = 23.98%float
  /\ analyzeVideoWithFFmpeg host_a (inr md) = Some (Resolved v)
  /\ analyzeVideoWithFFmpeg host_b (inr md) = Some (Resolved v)
  /\ forall (E : Engine) (file : Upload),
       exists fullVideoInfo,
         probed fullVideoInfo = v
         /\ analyzeVideo host_a file (inr md)
            = Some (Success fullVideoInfo (validateVideoSpecs fullVideoInfo))
         /\ analyzeVideo host_b file (inr md)
            = Some (Success fullVideoInfo (validateVideoSpecs fullVideoInfo)).
Proof.
  cbv zeta. split; [vm_compute; reflexivity|].
  apply (normalisation_host_independent host_a host_b
           (sample_probe "24000/1001" None) (sample_stream "24000/1001" None)
           24000 1001); [reflexivity | lia | lia | reflexivity].
Defined.

(** C4 (as stated) fails: the same probe record, with frame-rate text
    ["Math.random()*48"], gives frame rate 24 on one run and 12 on another,
    and the frame-rate criterion passes on the first and fails on the
    second. *)
Lemma same_probe_two_descriptors :
  exists v1 v2,
    analyzeVideoWithFFmpeg host_a (inr (sample_probe "Math.random()*48" None))
    = Some (Resolved v1)
    /\ analyzeVideoWithFFmpeg host_b (inr (sample_probe "Math.random()*48" None))
       = Some (Resolved v2)
    /\ frameRate v1 = 24%float /\ frameRate v2 = 12%float
    /\ frameRate_valid (mkFull v1 "clip.mp4" 1024 "video/mp4") = true
    /\ frameRate_valid (mkFull v2 "clip.mp4" 1024 "video/mp4") = false.
Proof.
  do 2 eexists. split; [reflexivity|]. split; [reflexivity|].
  repeat split.
Qed.

(** ** Compliance evaluation *)

Lemma every_valid_entries (a b c d e f : CriterionResult) :
  every_valid (entries a b c d e f)
  = valid a && (valid b && (valid c && (valid d && (valid e && (valid f && true))))).
Proof. reflexivity. Qed.

(** C2: what the code does for the three codec names.  ["avc1"] is valid
    and shown as H.264, ["vp9"] is invalid and shown as VP9; ["hvc1"] is
    shown as H.265 but is not valid: a codec name is valid exactly when,
    lower-cased, it contains "h264", "hevc", "h265" or "avc", and "hvc1"
    contains none of them. *)
Theorem codec_aliases (E : Engine) (v : FullVideoInfo) :
  let result c := Results.codec (validateVideoSpecs (with_codec v c)) in
  (valid (result "avc1") = true /\ value (result "avc1") = VString "H.264")
  /\ (valid (result "hvc1") = false /\ value (result "hvc1") = VString "H.265")
  /\ (valid (result "vp9") = false /\ value (result "vp9") = VString "VP9")
  /\ (forall c,
        let has token := Str.includes (Str.toLowerCase c) token in
        valid (result c) = has "h264" || has "hevc" || has "h265" || has "avc").
Proof.
  cbv zeta. repeat split.
  intro c.
  cbn [validateVideoSpecs Results.codec codec_result valid with_codec codec
       probed criteria Criteria.allowedCodecs existsb].
  change (Str.toLowerCase "h264") with "h264".
  change (Str.toLowerCase "hevc") with "hevc".
  change (Str.toLowerCase "h265") with "h265".
  destruct (Str.includes (Str.toLowerCase c) "h264"),
    (Str.includes (Str.toLowerCase c) "hevc"),
    (Str.includes (Str.toLowerCase c) "h265"),
    (Str.includes (Str.toLowerCase c) "avc"); reflexivity.
Qed.

(** C3: what the code does at the four frame rates.  The comparison is
    made on binary64 values: 23.9 and 24.1 are not representable, the
    computed distances to 24 exceed the binary64 value of 0.1, and both
    are rejected, like 23.89 and 24.11; 24 itself passes. *)
Theorem frame_rate_tolerance (E : Engine) (v : FullVideoInfo) :
  let ok x := valid (Results.frameRate (validateVideoSpecs (with_frameRate v x))) in
  ok 23.9%float = false /\ ok 23.89%float = false
  /\ ok 24.1%float = false /\ ok 24.11%float = false
  /\ ok 24%float = true
  /\ (forall x, ok x = (JS.Math_abs (x - 24) <=? 0.1)%float).
Proof. cbv zeta. repeat split. Qed.

(** The frame rate 23.9 is reached from the frame-rate text ["239/10"]. *)
Lemma frame_rate_23_9_reachable :
  exists d,
    analyzeVideoWithFFmpeg host_a (inr (sample_probe "239/10" None))
    = Some (Resolved d)
    /\ frameRate d = 23.9%float
    /\ frameRate_valid (mkFull d "clip.mp4" 1024 "video/mp4") = false.
Proof. eexists. split; [reflexivity|]. split; reflexivity. Qed.

(** C5 (amended): the format criterion is valid exactly when the
    lower-cased container format, or the MIME type as it was sent, contains
    one of "mp4", "mov", "quicktime"; only the container format is matched
    without regard to case. *)
Theorem format_valid_iff (E : Engine) (v : FullVideoInfo) :
  valid (Results.format (validateVideoSpecs v)) = true
  <-> exists token,
        In token ["mp4"; "mov"; "quicktime"]
        /\ (Str.includes (Str.toLowerCase (format v)) token = true
            \/ Str.includes (mimeType v) token = true).
Proof.
  change (valid (Results.format (validateVideoSpecs v)))
    with (existsb
            (fun token =>
               Str.includes (Str.toLowerCase (format v)) token
               || Str.includes (mimeType v) token)
            ["mp4"; "mov"; "quicktime"]).
  rewrite existsb_exists.
  split; intros [token [Hin H]]; exists token; (split; [exact Hin|]).
  - apply orb_true_iff. exact H.
  - apply orb_true_iff. exact H.
Qed.

(** C5 (as stated) fails: the MIME type "VIDEO/MP4" contains "mp4" when
    case is ignored, the container "avi" contains no token, and the
    criterion is invalid. *)
Lemma mime_type_match_is_case_sensitive :
  Str.includes (Str.toLowerCase "VIDEO/MP4") "mp4" = true
  /\ valid (format_result (with_container compliant "avi" "VIDEO/MP4")) = false.
Proof. split; reflexivity. Qed.

(** C6: [overall] is true exactly when the six criteria are valid.  Giving
    a descriptor the size 200 MB leaves the other five criteria as they
    were and makes the size criterion and the overall verdict false; for
    the sample descriptor, which meets every other rule, the size criterion
    is the only invalid one. *)
Theorem overall_iff_all_valid (E : Engine) (v : FullVideoInfo) :
  let r := validateVideoSpecs v in
  let big := validateVideoSpecs (with_fileSize v (200 * 1024 * 1024)) in
  let sample := validateVideoSpecs (with_fileSize compliant (200 * 1024 * 1024)) in
  (Results.overall r = true
   <-> valid (Results.resolution r) = true /\ valid (Results.format r) = true
       /\ valid (Results.fileSize r) = true /\ valid (Results.frameRate r) = true
       /\ valid (Results.frameCount r) = true /\ valid (Results.codec r) = true)
  /\ (valid (Results.fileSize big) = false /\ Results.overall big = false
      /\ Results.resolution big = Results.resolution r
      /\ Results.format big = Results.format r
      /\ Results.frameRate big = Results.frameRate r
      /\ Results.frameCount big = Results.frameCount r
      /\ Results.codec big = Results.codec r)
  /\ (Results.overall sample = false
      /\ valid (Results.fileSize sample) = false
      /\ valid (Results.resolution sample) = true
      /\ valid (Results.format sample) = true
      /\ valid (Results.frameRate sample) = true
      /\ valid (Results.frameCount sample) = true
      /\ valid (Results.codec sample) = true).
Proof.
  cbv zeta. split; [|split].
  - unfold validateVideoSpecs. cbn [Results.overall Results.resolution
      Results.format Results.fileSize Results.frameRate Results.frameCount
      Results.codec].
    rewrite every_valid_entries. rewrite !andb_true_iff. tauto.
  - repeat split.
  - repeat split.
Qed.

(** C7: the size criterion is valid exactly when the size is at most
    104857600 bytes, and a file of exactly that size passes. *)
Theorem file_size_valid_iff (E : Engine) (v : FullVideoInfo) :
  (valid (Results.fileSize (validateVideoSpecs v)) = true
   <-> fileSize v <= 104857600)
  /\ valid (Results.fileSize (validateVideoSpecs (with_fileSize v 104857600)))
     = true
  /\ valid (Results.fileSize (validateVideoSpecs (with_fileSize v 104857601)))
     = false.
Proof.
  split; [|split; reflexivity].
  change (valid (Results.fileSize (validateVideoSpecs v)))
    with (fileSize v <=? 104857600).
  apply Z.leb_le.
Qed.

(** C9: what the code stores in [value].  Five criteria hold a string;
    the frame-count criterion holds the frame count itself, a Number. *)
Theorem criterion_values (E : Engine) (v : FullVideoInfo) :
  let r := validateVideoSpecs v in
  is_string (value (Results.resolution r)) = true
  /\ is_string (value (Results.format r)) = true
  /\ is_string (value (Results.fileSize r)) = true
  /\ is_string (value (Results.frameRate r)) = true
  /\ is_string (value (Results.codec r)) = true
  /\ value (Results.frameCount r) = VNumber (frameCount v)
  /\ is_string (value (Results.frameCount r)) = false.
Proof. cbv zeta. repeat split. Qed.

(** C10: when the lower-cased container format contains "mp4" and also
    "mov" or "quicktime", the format is displayed as "MP4". *)
Theorem mp4_checked_before_mov (v : FullVideoInfo) :
  Str.includes (Str.toLowerCase (format v)) "mp4" = true ->
  Str.includes (Str.toLowerCase (format v)) "mov" = true
  \/ Str.includes (Str.toLowerCase (format v)) "quicktime" = true ->
  getFormatName (format v) (mimeType v) = "MP4"
  /\ value (format_result v) = VString "MP4"
  /\ forall E : Engine, value (Results.format (validateVideoSpecs v)) = VString "MP4".
Proof.
  intros Hmp4 _.
  assert (H : getFormatName (format v) (mimeType v) = "MP4")
    by (unfold getFormatName; rewrite Hmp4; reflexivity).
  split; [exact H|]. split.
  - cbn [format_result value]. rewrite H. reflexivity.
  - intro E. cbn [validateVideoSpecs Results.format format_result value].
    rewrite H. reflexivity.
Qed.

Lemma mp4_checked_before_mov_witness :
  let v := with_container compliant "mov,mp4,m4a,3gp,3g2,mj2" "video/quicktime" in
  Str.includes (Str.toLowerCase (format v)) "mp4" = true
  /\ (Str.includes (Str.toLowerCase (format v)) "mov" = true
      \/ Str.includes (Str.toLowerCase (format v)) "quicktime" = true)
  /\ getFormatName (format v) (mimeType v) = "MP4"
  /\ value (format_result v) = VString "MP4"
  /\ forall E : Engine,
       value (Results.format (validateVideoSpecs v)) = VString "MP4".
Proof.
  cbv zeta.
  split; [reflexivity|]. split; [left; reflexivity|].
  apply (mp4_checked_before_mov
           (with_container compliant "mov,mp4,m4a,3gp,3g2,mj2" "video/quicktime"));
    [reflexivity | left; reflexivity].
Defined.

(** * Further properties *)

(** ** Strings *)

Lemma prefix_iff (t s : string) :
  prefix t s = true <-> exists post, s = t ++ post.
Proof.
  revert s. induction t as [|c t IH]; intro s.
  - split; [intros _; exists s; reflexivity | intros _; destruct s; reflexivity].
  - destruct s as [|c' s]; cbn [prefix append].
    + split; [discriminate | intros [post H]; discriminate H].
    + destruct (ascii_dec c c') as [->|Hne].
      * rewrite IH. split; intros [post H]; exists post.
        -- now rewrite H.
        -- now injection H.
      * split; [discriminate|]. intros [post H]. injection H as H _.
        congruence.
Qed.

Lemma includes_iff (s t : string) :
  Str.includes s t = true <-> exists pre post, s = pre ++ t ++ post.
Proof.
  induction s as [|c s IH]; cbn [Str.includes]; rewrite orb_true_iff, prefix_iff.
  - split.
    + intros [[post H]|H]; [|discriminate]. exists "", post. exact H.
    + intros [[|c pre] [post H]]; [left; exists post; exact H | discriminate H].
  - rewrite IH. split.
    + intros [[post H]|[pre [post H]]].
      * exists "", post. exact H.
      * exists (String c pre), post. cbn. now rewrite H.
    + intros [[|c' pre] [post H]].
      * left. exists post. exact H.
      * right. cbn in H. injection H as _ H. exists pre, post. exact H.
Qed.

Lemma append_assoc (a b c : string) : (a ++ b) ++ c = a ++ b ++ c.
Proof. induction a as [|x a IH]; cbn; [reflexivity | now rewrite IH]. Qed.

(** A string that contains [t ++ u] contains [t]. *)
Lemma includes_shorter (s t u : string) :
  Str.includes s (t ++ u) = true -> Str.includes s t = true.
Proof.
  rewrite !includes_iff. intros [pre [post H]].
  exists pre, (u ++ post). now rewrite H, append_assoc.
Qed.

Lemma lower_upper_char (c : ascii) :
  Str.lower_char (Str.upper_char c) = Str.lower_char c.
Proof. destruct c as [[] [] [] [] [] [] [] []]; reflexivity. Qed.

Lemma upper_lower_char (c : ascii) :
  Str.upper_char (Str.lower_char c) = Str.upper_char c.
Proof. destruct c as [[] [] [] [] [] [] [] []]; reflexivity. Qed.

Lemma lower_lower_char (c : ascii) :
  Str.lower_char (Str.lower_char c) = Str.lower_char c.
Proof. destruct c as [[] [] [] [] [] [] [] []]; reflexivity. Qed.

Lemma upper_upper_char (c : ascii) :
  Str.upper_char (Str.upper_char c) = Str.upper_char c.
Proof. destruct c as [[] [] [] [] [] [] [] []]; reflexivity. Qed.

Lemma map_compose (f g h : ascii -> ascii) (s : string) :
  (forall c, f (g c) = h c) -> Str.map f (Str.map g s) = Str.map h s.
Proof. intro H. induction s as [|c s IH]; cbn; [reflexivity | now rewrite H, IH]. Qed.

Lemma toLowerCase_toUpperCase (s : string) :
  Str.toLowerCase (Str.toUpperCase s) = Str.toLowerCase s.
Proof. apply map_compose, lower_upper_char. Qed.

Lemma toUpperCase_toLowerCase (s : string) :
  Str.toUpperCase (Str.toLowerCase s) = Str.toUpperCase s.
Proof. apply map_compose, upper_lower_char. Qed.

Lemma toLowerCase_idem (s : string) :
  Str.toLowerCase (Str.toLowerCase s) = Str.toLowerCase s.
Proof. apply map_compose, lower_lower_char. Qed.

Lemma toUpperCase_idem (s : string) :
  Str.toUpperCase (Str.toUpperCase s) = Str.toUpperCase s.
Proof. apply map_compose, upper_upper_char. Qed.

(** ** Which stream is analysed *)

Lemma find_video_none (streams : list Probe.Stream) :
  find is_video streams = None
  <-> forall st, In st streams -> Probe.codec_type st <> "video".
Proof.
  split.
  - intros Hnone st Hin Htype.
    apply (find_none _ _ Hnone) in Hin. unfold is_video in Hin.
    rewrite Htype in Hin. discriminate Hin.
  - intro Hall. induction streams as [|s rest IH]; [reflexivity|]. cbn.
    unfold is_video at 1. destruct (String.eqb_spec (Probe.codec_type s) "video") as [Heq|_].
    + exfalso. apply (Hall s); [left; reflexivity | exact Heq].
    + apply IH. intros st Hin. apply Hall. right. exact Hin.
Qed.

(** X1: the callback rejects with "no video stream" exactly when no stream has
    the codec type "video" (an empty stream list included); nothing is
    evaluated in that case. *)
Theorem rejected_without_video_stream (h : Script.Host) (md : Probe.Metadata) :
  analyzeVideoWithFFmpeg h (inr md) = Some (Rejected NoVideoStream)
  <-> forall st, In st (Probe.streams md) -> Probe.codec_type st <> "video".
Proof.
  rewrite <- find_video_none. unfold analyzeVideoWithFFmpeg.
  destruct (find is_video (Probe.streams md)) as [st|].
  - split; [|discriminate].
    destruct (Script.eval h (Probe.r_frame_rate st)) as [[x|e]|]; discriminate.
  - split; reflexivity.
Qed.

Lemma find_first_video (before after : list Probe.Stream) (st : Probe.Stream) :
  (forall s, In s before -> Probe.codec_type s <> "video") ->
  Probe.codec_type st = "video" ->
  find is_video (before ++ st :: after) = Some st.
Proof.
  intros Hbefore Hst. induction before as [|s rest IH]; cbn.
  - unfold is_video. rewrite Hst. reflexivity.
  - unfold is_video at 1.
    destruct (String.eqb_spec (Probe.codec_type s) "video") as [Heq|_].
    + exfalso. apply (Hbefore s); [left; reflexivity | exact Heq].
    + apply IH. intros s' Hin. apply Hbefore. right. exact Hin.
Qed.

(** X2: only the first stream of codec type "video" is analysed: the streams
    of other types in front of it and every stream behind it, further
    video streams included, do not change the outcome. *)
Theorem first_video_stream_decides (h : Script.Host) (fmt : Probe.Format)
    (before after : list Probe.Stream) (st : Probe.Stream) :
  (forall s, In s before -> Probe.codec_type s <> "video") ->
  Probe.codec_type st = "video" ->
  analyzeVideoWithFFmpeg h (inr (Probe.mkMetadata (before ++ st :: after) fmt))
  = analyzeVideoWithFFmpeg h (inr (Probe.mkMetadata [st] fmt)).
Proof.
  intros Hbefore Hst. unfold analyzeVideoWithFFmpeg. cbn [Probe.streams].
  rewrite (find_first_video before after st Hbefore Hst).
  pose proof (find_first_video [] [] st) as Hone. cbn [app] in Hone.
  rewrite Hone; [reflexivity | intros s [] | exact Hst].
Qed.

(** ** Optional fields of the descriptor *)

(** X3: in a resolved descriptor [profile] is never the empty string and
    [bitRate] is never zero nor NaN: those values are replaced by [null]. *)
Theorem optional_fields_are_null_or_meaningful (h : Script.Host)
    (md : Probe.Metadata) (v : VideoInfo) :
  analyzeVideoWithFFmpeg h (inr md) = Some (Resolved v) ->
  profile v <> Some EmptyString
  /\ (forall x, bitRate v = Some x -> JS.truthy x = true)
  /\ (bitRate v = None
      <-> JS.truthy (ParseInt.parseInt_opt (Probe.bit_rate (Probe.format md)))
          = false).
Proof.
  unfold analyzeVideoWithFFmpeg.
  destruct (find is_video (Probe.streams md)) as [st|]; [|discriminate].
  destruct (Script.eval h (Probe.r_frame_rate st)) as [[rate|e]|];
    try discriminate.
  intros [= <-]. cbn [describe profile bitRate]. split; [|split].
  - destruct (Probe.profile st) as [[|c p]|]; cbn; discriminate.
  - unfold JS.or_else. intros x.
    destruct (JS.truthy (ParseInt.parseInt_opt _)) eqn:Ht; [|discriminate].
    intros [= <-]. exact Ht.
  - unfold JS.or_else.
    destruct (JS.truthy (ParseInt.parseInt_opt _)); split;
      try discriminate; reflexivity.
Qed.

(** ** Reading integers back *)

Lemma digits_acc (u : Decimal.uint) (acc : positive) (rest : string) :
  ParseInt.digits 10 (Some (Z.pos acc)) (NilEmpty.string_of_uint u ++ rest)
  = ParseInt.digits 10 (Some (Z.pos (Pos.of_uint_acc u acc))) rest.
Proof.
  revert acc.
  induction u; intro acc;
    cbn [NilEmpty.string_of_uint append Pos.of_uint_acc];
    [ reflexivity | .. ];
    cbn [ParseInt.digits];
    match goal with
    | |- context [ParseInt.digit 10 ?c] =>
        let k := eval vm_compute in (ParseInt.digit 10 c) in
        change (ParseInt.digit 10 c) with k
    end;
    cbv iota; rewrite <- IHu; do 3 f_equal.
  all: lia.
Qed.

Lemma digits_stop (acc : option Z) (rest : string) :
  delimits rest = true -> ParseInt.digits 10 acc rest = acc.
Proof.
  destruct rest as [|c rest]; [reflexivity|]. cbn [delimits ParseInt.digits].
  destruct c as [[] [] [] [] [] [] [] []]; intro H;
    try (vm_compute in H; discriminate H); reflexivity.
Qed.

Lemma parseInt_positive (neg : bool) (p : positive) (rest : string) :
  delimits rest = true ->
  let text := NilEmpty.string_of_uint (Pos.to_uint p) ++ rest in
  ParseInt.strip_radix text = (10, text)
  /\ ParseInt.strip_sign text = (false, text)
  /\ ParseInt.trim_start text = text
  /\ ParseInt.digits 10 None text = Some (Z.pos p).
Proof.
  intros Hrest text. subst text.
  pose proof (DecimalPos.Unsigned.of_to p) as Hof.
  pose proof (DecimalN.Unsigned.to_of (Pos.to_uint p)) as Hnorm.
  rewrite DecimalPos.Unsigned.of_to in Hnorm. cbn [N.to_uint] in Hnorm.
  destruct (Pos.to_uint p) as [|u|u|u|u|u|u|u|u|u|u] eqn:E;
    cbn [Pos.of_uint] in Hof; try discriminate Hof;
    try (injection Hof as Hof; rewrite <- Hof;
         cbn [NilEmpty.string_of_uint append];
         repeat split;
         cbn [ParseInt.digits];
         match goal with
         | |- context [ParseInt.digit 10 ?c] =>
             let k := eval vm_compute in (ParseInt.digit 10 c) in
             change (ParseInt.digit 10 c) with k
         end;
         cbv iota; cbn [Z.mul Z.add];
         rewrite digits_acc; apply digits_stop; exact Hrest).
  exfalso. unfold Decimal.unorm in Hnorm. cbn [Decimal.nzhead] in Hnorm.
  destruct (Decimal.nzhead u) eqn:Hu; try discriminate Hnorm.
  - injection Hnorm as ->. discriminate Hof.
  - symmetry in Hnorm. rewrite <- Hu in Hnorm. exact (nzhead_not_D0 _ _ Hnorm).
Qed.

Lemma strip_radix_zero (rest : string) :
  delimits rest = true ->
  ParseInt.strip_radix (String "0" rest) = (10, String "0" rest).
Proof.
  destruct rest as [|c rest]; [reflexivity|].
  destruct c as [[] [] [] [] [] [] [] []]; intro H;
    try (vm_compute in H; discriminate H); reflexivity.
Qed.

(** [parseInt] reads the decimal text of any integer back, also when other
    text follows the numeral. *)
Lemma parseInt_of_Z (n : Z) (rest : string) :
  delimits rest = true ->
  ParseInt.parseInt (Str.of_Z n ++ rest) = JS.Number_of_Z n.
Proof.
  intro Hrest. destruct n as [|p|p].
  - change (Str.of_Z 0 ++ rest) with (String "0" rest).
    unfold ParseInt.parseInt.
    cbn [ParseInt.trim_start]. change (ParseInt.is_space "0") with false. cbv iota.
    cbn [ParseInt.strip_sign].
    rewrite (strip_radix_zero rest Hrest).
    cbn [ParseInt.digits]. change (ParseInt.digit 10 "0") with (Some 0). cbv iota.
    rewrite (digits_stop _ _ Hrest). reflexivity.
  - destruct (parseInt_positive false p rest Hrest) as (Hr & Hs & Ht & Hd).
    unfold ParseInt.parseInt, Str.of_Z, Z.to_int, NilZero.string_of_int.
    replace (NilZero.string_of_uint (Pos.to_uint p))
      with (NilEmpty.string_of_uint (Pos.to_uint p))
      by (unfold NilZero.string_of_uint;
          destruct (Pos.to_uint p) eqn:E; try reflexivity;
          exfalso; exact (DecimalPos.Unsigned.to_uint_nonnil p E)).
    rewrite Ht, Hs, Hr, Hd. reflexivity.
  - destruct (parseInt_positive true p rest Hrest) as (Hr & Hs & Ht & Hd).
    unfold ParseInt.parseInt, Str.of_Z, Z.to_int, NilZero.string_of_int.
    replace (NilZero.string_of_uint (Pos.to_uint p))
      with (NilEmpty.string_of_uint (Pos.to_uint p))
      by (unfold NilZero.string_of_uint;
          destruct (Pos.to_uint p) eqn:E; try reflexivity;
          exfalso; exact (DecimalPos.Unsigned.to_uint_nonnil p E)).
    cbn [append ParseInt.trim_start]. change (ParseInt.is_space "-") with false.
    cbv iota. cbn [ParseInt.strip_sign]. rewrite Hr, Hd. reflexivity.
Qed.

(** ** Integer frame counts *)

Lemma all_from_spec (P : Z -> bool) (count : nat) :
  forall start,
    all_from P start count = true ->
    forall n, start <= n < start + Z.of_nat count -> P n = true.
Proof.
  induction count as [|c IH]; intros start Hall n Hn; [lia|].
  cbn [all_from] in Hall. apply andb_true_iff in Hall as [Hstart Hrest].
  destruct (Z.eq_dec n start) as [->|Hne]; [exact Hstart|].
  apply (IH (start + 1) Hrest). lia.
Qed.

(** Checked by evaluation on every integer of the range. *)
Lemma integer_counts_checked :
  all_from
    (fun n =>
       Bool.eqb (JS.Math_abs (JS.Number_of_Z n - 144) <=? 2)%float
         ((142 <=? n) && (n <=? 146))
       && Bool.eqb (JS.truthy (JS.Number_of_Z n)) (negb (n =? 0)))
    (-1000) (Z.to_nat 101000) = true.
Proof. vm_compute. reflexivity. Qed.

Lemma integer_count_facts (n : Z) :
  -1000 <= n < 100000 ->
  (JS.Math_abs (JS.Number_of_Z n - 144) <=? 2)%float = (142 <=? n) && (n <=? 146)
  /\ JS.truthy (JS.Number_of_Z n) = negb (n =? 0).
Proof.
  intro Hn.
  pose proof (all_from_spec _ _ _ integer_counts_checked n) as H.
  cbv beta in H. rewrite andb_true_iff in H.
  destruct H as [H1 H2]; [lia|].
  apply eqb_prop in H1, H2. split; assumption.
Qed.

(** X4: the frame-count criterion on integer counts: from -1000 up to 99999
    frames it is valid exactly for 142 to 146 frames, both bounds included;
    a frame count of NaN is invalid. *)
Theorem frame_count_window (v : FullVideoInfo) (n : Z) :
  -1000 <= n < 100000 ->
  forall E : Engine,
    (valid (Results.frameCount
              (validateVideoSpecs (with_frameCount v (JS.Number_of_Z n)))) = true
     <-> 142 <= n <= 146)
    /\ valid (Results.frameCount (validateVideoSpecs (with_frameCount v nan)))
       = false.
Proof.
  intros Hn E. split; [|reflexivity].
  change (valid (Results.frameCount
                   (validateVideoSpecs (with_frameCount v (JS.Number_of_Z n)))))
    with (JS.Math_abs (JS.Number_of_Z n - 144) <=? 2)%float.
  rewrite (proj1 (integer_count_facts n Hn)).
  rewrite andb_true_iff, !Z.leb_le. tauto.
Qed.

Lemma frame_count_window_witness :
  -1000 <= 146 < 100000
  /\ forall E : Engine,
       (valid (Results.frameCount
                 (validateVideoSpecs
                    (with_frameCount compliant (JS.Number_of_Z 146)))) = true
        <-> 142 <= 146 <= 146)
       /\ valid (Results.frameCount
                   (validateVideoSpecs (with_frameCount compliant nan)))
          = false.
Proof.
  split; [lia|]. apply (frame_count_window compliant 146). lia.
Defined.

(** X5: an explicit frame count between 1 and 99999 (or a negative one down to
    -1000), given as decimal text and possibly followed by other text, is
    the frame count of the descriptor, whatever the duration and the frame
    rate; the count 0 is not: the frame count is then computed. *)
Theorem explicit_frame_count_is_kept (md : Probe.Metadata)
    (st : Probe.Stream) (rate : JS.number) (n : Z) (rest : string) :
  -1000 <= n < 100000 ->
  delimits rest = true ->
  Probe.nb_frames st = Some (Str.of_Z n ++ rest) ->
  frameCount (describe md st rate)
  = if n =? 0
    then JS.Math_round (Probe.duration (Probe.format md) * rate)%float
    else JS.Number_of_Z n.
Proof.
  intros Hn Hrest Hnb. cbn [describe frameCount].
  unfold JS.or_else, ParseInt.parseInt_opt. rewrite Hnb.
  rewrite (parseInt_of_Z n rest Hrest).
  rewrite (proj2 (integer_count_facts n Hn)).
  destruct (n =? 0); reflexivity.
Qed.

Lemma explicit_frame_count_is_kept_witness :
  -1000 <= 144 < 100000
  /\ delimits "" = true
  /\ Probe.nb_frames (sample_stream "24000/1001" (Some "144")) = Some (Str.of_Z 144 ++ "")
  /\ frameCount (describe (sample_probe "24000/1001" (Some "144"))
                   (sample_stream "24000/1001" (Some "144")) 24%float)
     = JS.Number_of_Z 144.
Proof.
  split; [lia|]. split; [reflexivity|]. split; [reflexivity|].
  apply (explicit_frame_count_is_kept
           (sample_probe "24000/1001" (Some "144"))
           (sample_stream "24000/1001" (Some "144")) 24%float 144 "");
    [lia | reflexivity | reflexivity].
Defined.

(** ** An unknown frame rate *)

Lemma every_valid_false_frameRate (a b c d e f : CriterionResult) :
  valid d = false -> every_valid (entries a b c d e f) = false.
Proof.
  intro H. rewrite every_valid_entries, H.
  destruct (valid a), (valid b), (valid c); reflexivity.
Qed.

(** X6: ffprobe prints an unknown frame rate as "0/0".  Such a record is not
    rejected: it resolves with a frame rate of NaN, the frame-rate
    criterion is invalid and the overall verdict is false, whatever the
    other fields are. *)
Theorem unknown_frame_rate_is_invalid (h : Script.Host) (md : Probe.Metadata)
    (st : Probe.Stream) :
  find is_video (Probe.streams md) = Some st ->
  Probe.r_frame_rate st = "0/0" ->
  analyzeVideoWithFFmpeg h (inr md) = Some (Resolved (describe md st nan))
  /\ PrimFloat.is_nan (frameRate (describe md st nan)) = true
  /\ forall (E : Engine) (file : Upload),
       exists full r,
         analyzeVideo h file (inr md) = Some (Success full r)
         /\ valid (Results.frameRate r) = false
         /\ Results.overall r = false.
Proof.
  intros Hfind Hrate.
  assert (Hres : analyzeVideoWithFFmpeg h (inr md)
                 = Some (Resolved (describe md st nan))).
  { unfold analyzeVideoWithFFmpeg. rewrite Hfind, Hrate. reflexivity. }
  split; [exact Hres|]. split; [reflexivity|].
  intros E file. unfold analyzeVideo. rewrite Hres.
  do 2 eexists. split; [reflexivity|]. split; [reflexivity|].
  unfold validateVideoSpecs. cbn [Results.overall].
  apply every_valid_false_frameRate. reflexivity.
Qed.

Lemma unknown_frame_rate_is_invalid_witness :
  find is_video (Probe.streams (sample_probe "0/0" None))
  = Some (sample_stream "0/0" None)
  /\ Probe.r_frame_rate (sample_stream "0/0" None) = "0/0"
  /\ analyzeVideoWithFFmpeg host_a (inr (sample_probe "0/0" None))
     = Some (Resolved (describe (sample_probe "0/0" None)
                         (sample_stream "0/0" None) nan))
  /\ PrimFloat.is_nan
       (frameRate (describe (sample_probe "0/0" None)
                     (sample_stream "0/0" None) nan)) = true
  /\ forall (E : Engine) (file : Upload),
       exists full r,
         analyzeVideo host_a file (inr (sample_probe "0/0" None))
         = Some (Success full r)
         /\ valid (Results.frameRate r) = false
         /\ Results.overall r = false.
Proof.
  split; [reflexivity|]. split; [reflexivity|].
  apply (unknown_frame_rate_is_invalid host_a (sample_probe "0/0" None)
           (sample_stream "0/0" None)); reflexivity.
Defined.

(** ** Resolution *)

(** X7: the resolution criterion is valid exactly for 1920 by 810 and for
    3840 by 1620; no other pair passes, scaled or swapped ones included. *)
Theorem resolution_valid_iff (E : Engine) (v : FullVideoInfo) :
  (valid (Results.resolution (validateVideoSpecs v)) = true
   <-> (width v = 1920 /\ height v = 810)
       \/ (width v = 3840 /\ height v = 1620))
  /\ valid (Results.resolution
              (validateVideoSpecs (with_resolution v 810 1920))) = false
  /\ valid (Results.resolution
              (validateVideoSpecs (with_resolution v 1920 1620))) = false.
Proof.
  split; [|split; reflexivity].
  change (valid (Results.resolution (validateVideoSpecs v)))
    with (((1920 =? width v) && (810 =? height v))
          || (((3840 =? width v) && (1620 =? height v)) || false)).
  rewrite !orb_true_iff, !andb_true_iff, !Z.eqb_eq.
  intuition (try discriminate; auto).
Qed.

(** ** Codec names *)

Lemma codec_valid_tokens (v : FullVideoInfo) :
  let has token := Str.includes (Str.toLowerCase (codec v)) token in
  valid (codec_result v) = has "h264" || has "hevc" || has "h265" || has "avc".
Proof.
  cbv zeta.
  cbn [codec_result valid criteria Criteria.allowedCodecs existsb].
  change (Str.toLowerCase "h264") with "h264".
  change (Str.toLowerCase "hevc") with "hevc".
  change (Str.toLowerCase "h265") with "h265".
  destruct (Str.includes (Str.toLowerCase (codec v)) "h264"),
    (Str.includes (Str.toLowerCase (codec v)) "hevc"),
    (Str.includes (Str.toLowerCase (codec v)) "h265"),
    (Str.includes (Str.toLowerCase (codec v)) "avc"); reflexivity.
Qed.

Lemma getCodecName_cases (c : string) :
  let has token := Str.includes (Str.toLowerCase c) token in
  getCodecName c =
    if has "h264" || has "avc" then "H.264"
    else if has "hevc" || has "h265" || has "hev1" || has "hvc1" then "H.265"
    else Str.toUpperCase c.
Proof.
  cbv zeta. unfold getCodecName. cbn [codecMap find fst snd].
  destruct (Str.includes (Str.toLowerCase c) "h264"); [reflexivity|].
  destruct (Str.includes (Str.toLowerCase c) "avc") eqn:Havc; [reflexivity|].
  destruct (Str.includes (Str.toLowerCase c) "avc1") eqn:Havc1.
  - apply (includes_shorter _ "avc" "1") in Havc1. congruence.
  - cbn [orb].
    destruct (Str.includes (Str.toLowerCase c) "hevc"); [reflexivity|].
    destruct (Str.includes (Str.toLowerCase c) "h265"); [reflexivity|].
    destruct (Str.includes (Str.toLowerCase c) "hev1"); [reflexivity|].
    destruct (Str.includes (Str.toLowerCase c) "hvc1"); reflexivity.
Qed.

(** X8: a codec that passes the codec criterion is always displayed as "H.264"
    or "H.265".  The converse fails: the names that contain "hev1" or
    "hvc1" but none of "h264", "avc", "hevc", "h265" are displayed as
    "H.265" and are invalid. *)
Theorem valid_codec_has_a_display_name (E : Engine) (v : FullVideoInfo) :
  let r := Results.codec (validateVideoSpecs v) in
  let has token := Str.includes (Str.toLowerCase (codec v)) token in
  (valid r = true /\ (value r = VString "H.264" \/ value r = VString "H.265"))
  \/ (valid r = false
      /\ ((has "hev1" || has "hvc1" = true /\ value r = VString "H.265")
          \/ (has "hev1" || has "hvc1" = false
              /\ value r = VString (Str.toUpperCase (codec v))))).
Proof.
  cbv zeta.
  change (Results.codec (validateVideoSpecs v)) with (codec_result v).
  rewrite (codec_valid_tokens v). cbn [codec_result value].
  rewrite (getCodecName_cases (codec v)). cbv zeta.
  destruct (Str.includes (Str.toLowerCase (codec v)) "h264"),
    (Str.includes (Str.toLowerCase (codec v)) "avc"),
    (Str.includes (Str.toLowerCase (codec v)) "hevc"),
    (Str.includes (Str.toLowerCase (codec v)) "h265"),
    (Str.includes (Str.toLowerCase (codec v)) "hev1"),
    (Str.includes (Str.toLowerCase (codec v)) "hvc1"); cbn; tauto.
Qed.

(** X9: the entry 'avc1' of [codecMap] is never the one that matches: a name
    that contains "avc1" is already caught by the entry 'avc' in front of
    it. *)
Theorem avc1_entry_never_selected (c : string) (kv : string * string) :
  find (fun kv => Str.includes (Str.toLowerCase c) (fst kv)) codecMap = Some kv ->
  fst kv <> "avc1".
Proof.
  cbn [codecMap find fst].
  destruct (Str.includes (Str.toLowerCase c) "h264"); [intros [= <-]; discriminate|].
  destruct (Str.includes (Str.toLowerCase c) "avc") eqn:Havc;
    [intros [= <-]; discriminate|].
  destruct (Str.includes (Str.toLowerCase c) "avc1") eqn:Havc1.
  - apply (includes_shorter _ "avc" "1") in Havc1. congruence.
  - destruct (Str.includes (Str.toLowerCase c) "hevc"); [intros [= <-]; discriminate|].
    destruct (Str.includes (Str.toLowerCase c) "h265"); [intros [= <-]; discriminate|].
    destruct (Str.includes (Str.toLowerCase c) "hev1"); [intros [= <-]; discriminate|].
    destruct (Str.includes (Str.toLowerCase c) "hvc1"); [intros [= <-]; discriminate|].
    discriminate.
Qed.

Lemma avc1_entry_never_selected_witness :
  find (fun kv => Str.includes (Str.toLowerCase "AVC1") (fst kv)) codecMap
  = Some ("avc", "H.264")
  /\ fst ("avc", "H.264") <> "avc1".
Proof.
  split; [reflexivity|].
  apply (avc1_entry_never_selected "AVC1" ("avc", "H.264")). reflexivity.
Defined.

(** X10: the unconditional "hevc" alias of the codec check never changes the
    verdict, since "hevc" is among the allowed codecs; only the "avc"
    alias adds names. *)
Theorem hevc_alias_is_redundant (E : Engine) (v : FullVideoInfo) :
  valid (Results.codec (validateVideoSpecs v))
  = existsb
      (fun allowed =>
         Str.includes (Str.toLowerCase (codec v)) (Str.toLowerCase allowed)
         || Str.includes (Str.toLowerCase (codec v)) "avc")
      (Criteria.allowedCodecs criteria).
Proof.
  change (Results.codec (validateVideoSpecs v)) with (codec_result v).
  rewrite (codec_valid_tokens v). cbv zeta.
  cbn [criteria Criteria.allowedCodecs existsb].
  change (Str.toLowerCase "h264") with "h264".
  change (Str.toLowerCase "hevc") with "hevc".
  change (Str.toLowerCase "h265") with "h265".
  destruct (Str.includes (Str.toLowerCase (codec v)) "h264"),
    (Str.includes (Str.toLowerCase (codec v)) "hevc"),
    (Str.includes (Str.toLowerCase (codec v)) "h265"),
    (Str.includes (Str.toLowerCase (codec v)) "avc"); reflexivity.
Qed.

(** X11: neither the verdict nor the display of the codec and format criteria
    depends on the letter case of the codec name and of the container
    format that ffprobe reports. *)
Theorem probe_names_case_insensitive (E : Engine) (v : FullVideoInfo) :
  Results.codec (validateVideoSpecs (with_codec v (Str.toUpperCase (codec v))))
  = Results.codec (validateVideoSpecs v)
  /\ Results.codec (validateVideoSpecs (with_codec v (Str.toLowerCase (codec v))))
     = Results.codec (validateVideoSpecs v)
  /\ Results.format
       (validateVideoSpecs
          (with_container v (Str.toUpperCase (format v)) (mimeType v)))
     = Results.format (validateVideoSpecs v)
  /\ Results.format
       (validateVideoSpecs
          (with_container v (Str.toLowerCase (format v)) (mimeType v)))
     = Results.format (validateVideoSpecs v).
Proof.
  cbn [validateVideoSpecs Results.codec Results.format].
  unfold codec_result, format_result, getCodecName, getFormatName.
  cbn [with_codec with_container codec format mimeType probed].
  rewrite !toLowerCase_toUpperCase, !toLowerCase_idem,
    !toUpperCase_idem, !toUpperCase_toLowerCase.
  repeat split.
Qed.

(** ** Container format *)

(** X12: how the format verdict and the format display go together, case by
    case.  An invalid format is displayed as the upper-cased container
    name.  A valid format is displayed as "MP4" when the lower-cased
    container name or the MIME type contains "mp4"; otherwise as "MOV"
    when the lower-cased container name contains "mov" or "quicktime" or
    the MIME type contains "quicktime"; and otherwise, which leaves a
    format that is valid only because the MIME type contains "mov", as
    the upper-cased container name. *)
Theorem format_display_follows_verdict (E : Engine) (v : FullVideoInfo) :
  let r := Results.format (validateVideoSpecs v) in
  let container := Str.toLowerCase (format v) in
  let mp4 := Str.includes container "mp4" || Str.includes (mimeType v) "mp4" in
  let mov := Str.includes container "mov" || Str.includes container "quicktime"
             || Str.includes (mimeType v) "quicktime" in
  (valid r = false
   /\ mp4 = false /\ mov = false /\ Str.includes (mimeType v) "mov" = false
   /\ value r = VString (Str.toUpperCase (format v)))
  \/ (valid r = true /\ mp4 = true /\ value r = VString "MP4")
  \/ (valid r = true /\ mp4 = false /\ mov = true /\ value r = VString "MOV")
  \/ (valid r = true /\ mp4 = false /\ mov = false
      /\ Str.includes (mimeType v) "mov" = true
      /\ value r = VString (Str.toUpperCase (format v))).
Proof.
  cbv zeta.
  change (Results.format (validateVideoSpecs v)) with (format_result v).
  unfold format_result, getFormatName.
  cbn [valid value criteria Criteria.allowedFormats existsb].
  destruct (Str.includes (Str.toLowerCase (format v)) "mp4"),
    (Str.includes (mimeType v) "mp4"),
    (Str.includes (Str.toLowerCase (format v)) "mov"),
    (Str.includes (mimeType v) "mov"),
    (Str.includes (Str.toLowerCase (format v)) "quicktime"),
    (Str.includes (mimeType v) "quicktime"); cbn; tauto.
Qed.

(** X13: the MIME type sent with the upload is enough to pass the format
    criterion: when it contains "mp4" the criterion is valid and displayed
    as "MP4" whatever container ffprobe reports, and when it contains
    "quicktime" the criterion is valid as well. *)
Theorem mime_type_alone_validates_format (v : FullVideoInfo) (container : string) :
  Str.includes (mimeType v) "mp4" = true
  \/ Str.includes (mimeType v) "quicktime" = true ->
  forall E : Engine,
    let r := Results.format
               (validateVideoSpecs (with_container v container (mimeType v))) in
    valid r = true
    /\ (Str.includes (mimeType v) "mp4" = true -> value r = VString "MP4").
Proof.
  intros Hmime E. cbv zeta.
  cbn [validateVideoSpecs Results.format].
  unfold format_result, getFormatName.
  cbn [valid value criteria Criteria.allowedFormats existsb with_container
       format mimeType probed].
  destruct Hmime as [H|H]; rewrite H; rewrite ?orb_true_r; cbn [orb].
  - split; [reflexivity | intros _; reflexivity].
  - split; [rewrite ?orb_true_r; reflexivity|].
    intros Hmp4. rewrite Hmp4, orb_true_r. reflexivity.
Qed.

Lemma mime_type_alone_validates_format_witness :
  (Str.includes (mimeType compliant) "mp4" = true
   \/ Str.includes (mimeType compliant) "quicktime" = true)
  /\ forall E : Engine,
       let r := Results.format
                  (validateVideoSpecs
                     (with_container compliant "avi" (mimeType compliant))) in
       valid r = true
       /\ (Str.includes (mimeType compliant) "mp4" = true
           -> value r = VString "MP4").
Proof.
  split; [left; reflexivity|].
  apply (mime_type_alone_validates_format compliant "avi").
  left. reflexivity.
Defined.

(** ** File extensions *)

Lemma includes_dot_cons (c : ascii) (s : string) :
  Str.includes (String c s) "." = Ascii.eqb c "." || Str.includes s ".".
Proof.
  cbn [Str.includes prefix]. destruct (ascii_dec "." c) as [<-|Hne].
  - destruct s; reflexivity.
  - destruct (Ascii.eqb_spec c ".") as [->|_]; [congruence | reflexivity].
Qed.

Lemma split_not_empty (sep : ascii) (s : string) : split sep s <> [].
Proof.
  destruct s as [|c s]; cbn; [discriminate|].
  destruct (Ascii.eqb c sep); [discriminate|].
  destruct (split sep s); discriminate.
Qed.

Lemma split_no_dot (s : string) :
  Str.includes s "." = false -> split "." s = [s].
Proof.
  induction s as [|c s IH]; [reflexivity|].
  rewrite includes_dot_cons. intro H. apply orb_false_iff in H as [Hc Hs].
  cbn [split]. rewrite Hc, (IH Hs). reflexivity.
Qed.

Lemma pop_cons (x : string) (xs : list string) :
  xs <> [] -> pop (x :: xs) = pop xs.
Proof. destruct xs; [congruence | reflexivity]. Qed.

Lemma split_after_dot (base rest : string) :
  exists piece pieces,
    split "." (base ++ String "." rest) = piece :: pieces
    /\ pieces <> [] /\ pop pieces = pop (split "." rest).
Proof.
  induction base as [|c base (piece & pieces & Hsplit & Hne & Hpop)];
    cbn [append split].
  - change (Ascii.eqb "." ".") with true. cbv iota.
    exists EmptyString, (split "." rest).
    split; [reflexivity|]. split; [apply split_not_empty | reflexivity].
  - rewrite Hsplit. destruct (Ascii.eqb c ".").
    + exists EmptyString, (piece :: pieces).
      split; [reflexivity|]. split; [discriminate|].
      rewrite (pop_cons _ _ Hne). exact Hpop.
    + exists (String c piece), pieces. repeat split; assumption.
Qed.

(** The last piece of a name is the last piece of what follows any of its
    dots. *)
Lemma pop_split_after_dot (base rest : string) :
  pop (split "." (base ++ String "." rest)) = pop (split "." rest).
Proof.
  destruct (split_after_dot base rest) as (piece & pieces & Hsplit & Hne & Hpop).
  rewrite Hsplit, (pop_cons _ _ Hne). exact Hpop.
Qed.

Lemma lower_char_dot (c : ascii) :
  Ascii.eqb (Str.lower_char c) "." = Ascii.eqb c ".".
Proof. destruct c as [[] [] [] [] [] [] [] []]; reflexivity. Qed.

Lemma toLowerCase_dot_free (s : string) :
  Str.includes (Str.toLowerCase s) "." = Str.includes s ".".
Proof.
  induction s as [|c s IH]; [reflexivity|].
  change (Str.toLowerCase (String c s))
    with (String (Str.lower_char c) (Str.toLowerCase s)).
  rewrite !includes_dot_cons, lower_char_dot, IH. reflexivity.
Qed.

Lemma last_piece_dot_free (s : string) :
  exists piece, pop (split "." s) = Some piece /\ Str.includes piece "." = false.
Proof.
  induction s as [|c s (piece & Hpop & Hfree)]; cbn [split].
  - exists EmptyString. split; reflexivity.
  - destruct (Ascii.eqb c ".") eqn:Hc.
    + exists piece. split; [|exact Hfree].
      rewrite pop_cons by apply split_not_empty. exact Hpop.
    + destruct (split "." s) as [|p ps] eqn:E; [discriminate Hpop|].
      destruct ps as [|q ps].
      * injection Hpop as <-. exists (String c p). split; [reflexivity|].
        rewrite includes_dot_cons, Hc, Hfree. reflexivity.
      * exists piece. split; [exact Hpop | exact Hfree].
Qed.

(** The name of the temporary file is always defined. *)
Lemma tempFileName_shape (stamp originalname : string) :
  exists ext,
    getFileExtension originalname = Some ext
    /\ tempFileName stamp originalname = Some ("temp_" ++ stamp ++ "." ++ ext)
    /\ Str.includes ext "." = false
    /\ Str.toLowerCase ext = ext.
Proof.
  destruct (last_piece_dot_free originalname) as (piece & Hpop & Hfree).
  exists (Str.toLowerCase piece). unfold tempFileName, getFileExtension.
  rewrite Hpop. split; [reflexivity|]. split; [reflexivity|]. split.
  - rewrite toLowerCase_dot_free. exact Hfree.
  - apply toLowerCase_idem.
Qed.

(** X14: [getFileExtension] never fails, and what it returns is lower-cased and
    contains no dot; in particular the extension never holds a ".."
    path segment. *)
Theorem extension_is_lowercase_without_dot (filename : string) :
  exists ext,
    getFileExtension filename = Some ext
    /\ Str.includes ext "." = false
    /\ Str.toLowerCase ext = ext.
Proof.
  destruct (last_piece_dot_free filename) as (piece & Hpop & Hfree).
  exists (Str.toLowerCase piece). unfold getFileExtension. rewrite Hpop.
  split; [reflexivity|]. split.
  - rewrite toLowerCase_dot_free. exact Hfree.
  - apply toLowerCase_idem.
Qed.

(** X15: the extension of [base.ext], where [ext] contains no dot, is [ext]
    lower-cased, whatever dots [base] contains. *)
Theorem extension_after_last_dot (base ext : string) :
  Str.includes ext "." = false ->
  getFileExtension (base ++ "." ++ ext) = Some (Str.toLowerCase ext).
Proof.
  intro Hfree. unfold getFileExtension.
  change (base ++ "." ++ ext) with (base ++ String "." ext).
  rewrite pop_split_after_dot, (split_no_dot ext Hfree). reflexivity.
Qed.

Lemma extension_after_last_dot_witness :
  Str.includes "MOV" "." = false
  /\ getFileExtension ("my.clip.final" ++ "." ++ "MOV") = Some (Str.toLowerCase "MOV").
Proof.
  split; [reflexivity|]. apply (extension_after_last_dot "my.clip.final" "MOV").
  reflexivity.
Defined.

(** X16: a file name without any dot is returned whole, lower-cased, as its own
    extension. *)
Theorem extension_of_dotless_name (filename : string) :
  Str.includes filename "." = false ->
  getFileExtension filename = Some (Str.toLowerCase filename).
Proof.
  intro Hfree. unfold getFileExtension.
  rewrite (split_no_dot filename Hfree). reflexivity.
Qed.

Lemma extension_of_dotless_name_witness :
  Str.includes "Movie" "." = false
  /\ getFileExtension "Movie" = Some (Str.toLowerCase "Movie").
Proof.
  split; [reflexivity|]. apply (extension_of_dotless_name "Movie"). reflexivity.
Defined.

(** X17: the temporary file always gets a name, which starts with "temp_" and
    has the same extension as the uploaded file. *)
Theorem temp_file_keeps_extension (stamp originalname : string) :
  exists name ext,
    tempFileName stamp originalname = Some name
    /\ getFileExtension originalname = Some ext
    /\ name = "temp_" ++ stamp ++ "." ++ ext
    /\ getFileExtension name = Some ext.
Proof.
  destruct (tempFileName_shape stamp originalname)
    as (ext & Hext & Hname & Hfree & Hlow).
  exists ("temp_" ++ stamp ++ "." ++ ext), ext.
  split; [exact Hname|]. split; [exact Hext|]. split; [reflexivity|].
  unfold getFileExtension.
  change ("temp_" ++ stamp ++ "." ++ ext)
    with (("temp_" ++ stamp) ++ String "." ext).
  rewrite pop_split_after_dot, (split_no_dot ext Hfree). cbn [pop option_map].
  rewrite Hlow. reflexivity.
Qed.

(** ** The temporary file of a request *)













(** ** The periodic sweep *)
















(** ** A sweep while the probe is running *)







(** ** Integer frame rates *)

(** Checked by evaluation on every integer of the range. *)
Lemma integer_rates_checked :
  all_from
    (fun n =>
       let shown := (JS.Math_round (JS.Number_of_Z n / JS.Number_of_Z 1 * 100)
                     / 100)%float in
       (shown =? JS.Number_of_Z n)%float
       && Bool.eqb (JS.Math_abs (shown - 24) <=? 0.1)%float (n =? 24))
    0 (Z.to_nat 10000) = true.
Proof. vm_compute. reflexivity. Qed.

(** X23: a whole frame rate [n/1] with n below 10000 survives the rounding to
    two decimals unchanged, and the frame-rate criterion accepts it
    exactly when n is 24. *)
Theorem whole_frame_rates (h : Script.Host) (md : Probe.Metadata)
    (st : Probe.Stream) (n : Z) :
  find is_video (Probe.streams md) = Some st ->
  0 <= n < 10000 ->
  Probe.r_frame_rate st = Str.of_Z n ++ "/" ++ Str.of_Z 1 ->
  exists v,
    analyzeVideoWithFFmpeg h (inr md) = Some (Resolved v)
    /\ (frameRate v =? JS.Number_of_Z n)%float = true
    /\ forall (E : Engine) (file : Upload),
         valid (Results.frameRate
                  (validateVideoSpecs
                     (mkFull v (originalname file) (size file) (mimetype file))))
         = (n =? 24).
Proof.
  intros Hfind Hn Hrate.
  pose proof (all_from_spec _ _ _ integer_rates_checked n) as H.
  cbv beta zeta in H. rewrite andb_true_iff in H.
  destruct H as [Hshown Hvalid]; [lia|]. apply eqb_prop in Hvalid.
  eexists. split; [|split].
  - unfold analyzeVideoWithFFmpeg. rewrite Hfind, Hrate.
    rewrite (eval_ratio h n 1) by lia. reflexivity.
  - exact Hshown.
  - intros E file. exact Hvalid.
Qed.

Lemma whole_frame_rates_witness :
  find is_video (Probe.streams (sample_probe "24/1" None))
  = Some (sample_stream "24/1" None)
  /\ 0 <= 24 < 10000
  /\ Probe.r_frame_rate (sample_stream "24/1" None) = Str.of_Z 24 ++ "/" ++ Str.of_Z 1
  /\ exists v,
       analyzeVideoWithFFmpeg host_a (inr (sample_probe "24/1" None))
       = Some (Resolved v)
       /\ (frameRate v =? JS.Number_of_Z 24)%float = true
       /\ forall (E : Engine) (file : Upload),
            valid (Results.frameRate
                     (validateVideoSpecs
                        (mkFull v (originalname file) (size file) (mimetype file))))
            = (24 =? 24).
Proof.
  split; [reflexivity|]. split; [lia|]. split; [reflexivity|].
  apply (whole_frame_rates host_a (sample_probe "24/1" None)
           (sample_stream "24/1" None) 24); [reflexivity | lia | reflexivity].
Defined.

Lemma first_video_stream_decides_witness :
  let audio := Probe.mkStream "audio" 0 0 "0/0" None "aac" None in
  let cover := Probe.mkStream "video" 600 600 "90000/1" None "mjpeg" None in
  let fmt := Probe.mkFormat 6%float None "mov,mp4,m4a,3gp,3g2,mj2" in
  (forall s, In s [audio] -> Probe.codec_type s <> "video")
  /\ Probe.codec_type (sample_stream "24/1" None) = "video"
  /\ analyzeVideoWithFFmpeg host_a
       (inr (Probe.mkMetadata ([audio] ++ sample_stream "24/1" None :: [cover]) fmt))
     = analyzeVideoWithFFmpeg host_a
         (inr (Probe.mkMetadata [sample_stream "24/1" None] fmt)).
Proof.
  cbv zeta.
  assert (Hbefore : forall s,
             In s [Probe.mkStream "audio" 0 0 "0/0" None "aac" None] ->
             Probe.codec_type s <> "video")
    by (intros s [<-|[]]; discriminate).
  split; [exact Hbefore|]. split; [reflexivity|].
  apply (first_video_stream_decides host_a
           (Probe.mkFormat 6%float None "mov,mp4,m4a,3gp,3g2,mj2")
           [Probe.mkStream "audio" 0 0 "0/0" None "aac" None]
           [Probe.mkStream "video" 600 600 "90000/1" None "mjpeg" None]
           (sample_stream "24/1" None)); [exact Hbefore | reflexivity].
Defined.

Lemma optional_fields_are_null_or_meaningful_witness :
  analyzeVideoWithFFmpeg host_a (inr (sample_probe "24/1" None))
  = Some (Resolved (describe (sample_probe "24/1" None)
                      (sample_stream "24/1" None) 24%float))
  /\ profile (describe (sample_probe "24/1" None) (sample_stream "24/1" None) 24%float)
     <> Some EmptyString
  /\ (forall x,
        bitRate (describe (sample_probe "24/1" None)
                   (sample_stream "24/1" None) 24%float) = Some x ->
        JS.truthy x = true)
  /\ (bitRate (describe (sample_probe "24/1" None)
                 (sample_stream "24/1" None) 24%float) = None
      <-> JS.truthy
            (ParseInt.parseInt_opt
               (Probe.bit_rate (Probe.format (sample_probe "24/1" None))))
          = false).
Proof.
  split; [reflexivity|].
  apply (optional_fields_are_null_or_meaningful host_a
           (sample_probe "24/1" None)).
  reflexivity.
Defined.
